(** * hass-swissweather: the MeteoSwiss client and its update coordinator

    A shallow embedding of [custom_components/swissweather/meteo.py] and of
    [custom_components/swissweather/coordinator.py], followed by the
    properties of the value tagger, the condition table, the two
    normalizers, the multi-resolution merger and the poll.

    Conventions of the embedding:
    - a Python value decoded from JSON or read from the CSV feed is a
      [pyval]; a dict is the list of its items (distinct keys, in order);
    - a function that can raise returns a [result]; the exception classes
      the code can meet are the constructors of [exn];
    - a [datetime] is the integer count of microseconds since the epoch, a
      [timedelta] an integer count of microseconds; the sum of a datetime
      and a timedelta raises [OverflowError] outside [datetime.min] to
      [datetime.max];
    - the [while] loop of the merger takes a fuel: [None] means the fuel
      ran out, never a Python outcome;
    - the wall clock read by the loop is a function from the number of
      earlier readings to the instant read;
    - the builtins of the Python runtime the code calls ([float], [int],
      [str.casefold], [datetime.strptime], [datetime.fromtimestamp]) are
      the fields of the class [PyBuiltins]. *)

From Stdlib Require Import ZArith QArith Lia Ascii.
From stdpp Require Import base option list strings gmap sorting.

Local Open Scope Z_scope.

(** ** Exceptions and results *)

Inductive exn : Type :=
  | IndexError
  | KeyError
  | ValueError
  | TypeError
  | AttributeError
  | OverflowError
  | RequestException
  | UpdateFailed.

Inductive result (A : Type) : Type :=
  | Ok (a : A)
  | Raise (e : exn).

Arguments Ok {A} a.
Arguments Raise {A} e.

#[global] Instance result_ret : MRet result := λ A a, Ok a.
#[global] Instance result_bind : MBind result :=
  λ A B f m, match m with Ok a => f a | Raise e => Raise e end.

(** [try: ... except ValueError: return None] around a builtin. *)
Definition except_ValueError {A} (r : result A) : result (option A) :=
  match r with
  | Ok a => Ok (Some a)
  | Raise ValueError => Ok None
  | Raise e => Raise e
  end.

(** ** Python values *)

#[local] Set Warnings "-register-all".

Inductive pyval (float : Type) : Type :=
  | PNone
  | PBool (b : bool)
  | PInt (z : Z)
  | PFloat (f : float)
  | PStr (s : string)
  | PList (l : list (pyval float))
  | PDict (d : list (string * pyval float)).

Arguments PNone {float}.
Arguments PBool {float} b.
Arguments PInt {float} z.
Arguments PFloat {float} f.
Arguments PStr {float} s.
Arguments PList {float} l.
Arguments PDict {float} d.

Abbreviation datetime := Z (only parsing).
Abbreviation timedelta := Z (only parsing).

(** The builtins of the runtime.  [None] stands for [ValueError] where the
    builtin raises nothing else on that argument type. *)
Class PyBuiltins (float : Type) : Type := {
  (** [float(s)] for a [str] *)
  float_of_str : string → option float;
  (** [float(n)] for an [int]; [None] is [OverflowError] *)
  float_of_int : Z → option float;
  (** [int(s)] for a [str] *)
  int_of_str : string → option Z;
  (** [int(x)] for a [float]: [ValueError] on nan, [OverflowError] on inf *)
  int_of_float : float → result Z;
  (** the integer a float compares equal to (and hashes like), if any *)
  float_as_int : float → option Z;
  (** [s.casefold()] *)
  casefold : string → string;
  (** [datetime.strptime(s, fmt)] *)
  strptime : string → string → option datetime;
  (** [datetime.fromtimestamp(epoch / 1000, UTC)] for an [int] epoch *)
  fromtimestamp_ms : Z → result datetime;
  (** the same for a [float] epoch *)
  fromtimestamp_ms_float : float → result datetime
}.

(** [timedelta(minutes=n)] and [timedelta(hours=n)], in microseconds. *)
Definition minutes (n : Z) : timedelta := n * 60000000.
Definition hours (n : Z) : timedelta := n * 3600000000.

(** [datetime.min] and [datetime.max]: the first microsecond of the year 1
    and the last one of the year 9999. *)
Definition datetime_min : datetime := -62135596800000000.
Definition datetime_max : datetime := 253402300799999999.

(** [t + d] for a datetime and a timedelta; [t - d] is [t + (-d)]. *)
Definition datetime_add (t : datetime) (d : timedelta) : result datetime :=
  if bool_decide (datetime_min ≤ t + d ≤ datetime_max)
  then Ok (t + d) else Raise OverflowError.

Arguments datetime_add : simpl never.

(** ** The condition table *)

Definition CONDITION_CLASSES : list (string * list Z) :=
  [ ("clear-night", [101]);
    ("cloudy", [5;35;105;135]);
    ("fog", [27;28;127;128]);
    ("hail", []);
    ("lightning", [12;112]);
    ("lightning-rainy", [13;23;24;25;32;113;123;124;125;132]);
    ("partlycloudy", [2;3;4;102;103;104]);
    ("pouring", [20;120]);
    ("rainy", [6;9;14;17;29;33;106;109;114;117;129;133]);
    ("snowy", [8;11;16;19;22;30;34;108;111;116;119;122;130;134]);
    ("snowy-rainy", [7;10;15;18;21;31;107;110;115;118;121;131]);
    ("sunny", [1;26;126]);
    ("windy", []);
    ("windy-variant", []);
    ("exceptional", []) ]%string.

(** [{i: k for k, v in CONDITION_CLASSES.items() for i in v}] *)
Definition ICON_TO_CONDITION_MAP : gmap Z string :=
  foldl (λ m kv, foldl (λ m i, <[i := kv.1]> m) m kv.2) ∅ CONDITION_CLASSES.

(** ** The operations of Python values the code uses *)

Section Model.
Context {float : Type} `{!PyBuiltins float}.

Abbreviation value := (pyval float).

(** The first item of a dict with the given key. *)
Fixpoint dict_lookup (d : list (string * value)) (key : string) : option value :=
  match d with
  | [] => None
  | (k, v) :: d' => if String.eqb k key then Some v else dict_lookup d' key
  end.

(** [obj.get(key, default)] *)
Definition py_get (obj : value) (key : string) (default : value) : result value :=
  match obj with
  | PDict d => Ok (match dict_lookup d key with Some v => v | None => default end)
  | _ => Raise AttributeError
  end.

(** [obj[key]] for a [str] key *)
Definition py_getitem (obj : value) (key : string) : result value :=
  match obj with
  | PDict d => match dict_lookup d key with Some v => Ok v | None => Raise KeyError end
  | _ => Raise TypeError
  end.

Definition is_str (key : string) (v : value) : bool :=
  match v with PStr s => String.eqb s key | _ => false end.

(** [key in obj] for a [str] key *)
Definition py_contains (key : string) (obj : value) : result bool :=
  match obj with
  | PDict d => Ok (bool_decide (is_Some (dict_lookup d key)))
  | PList l => Ok (existsb (is_str key) l)
  | PStr s => Ok (bool_decide (is_Some (String.index 0 key s)))
  | _ => Raise TypeError
  end.

(** The elements [for x in obj] goes through: the elements of a list, the
    keys of a dict, the characters of a (one-byte-per-character) text. *)
Definition py_iter (obj : value) : result (list value) :=
  match obj with
  | PList l => Ok l
  | PDict d => Ok ((λ kv, PStr kv.1) <$> d)
  | PStr s => Ok ((λ c, PStr (String c EmptyString)) <$> String.list_ascii_of_string s)
  | _ => Raise TypeError
  end.

(** [l[i]] for a list and [i >= 0]; [l[0]] and [l[-1]] *)
Definition py_index {A} (l : list A) (i : nat) : result A :=
  match l !! i with Some x => Ok x | None => Raise IndexError end.

Definition py_first {A} (l : list A) : result A := py_index l 0.

Definition py_last {A} (l : list A) : result A :=
  match last l with Some x => Ok x | None => Raise IndexError end.

(** [for x in l: body(x)] collecting what the bodies return. *)
Fixpoint for_each {A B} (body : A → result B) (l : list A) : result (list B) :=
  match l with
  | [] => Ok []
  | x :: l' => y ← body x; ys ← for_each body l'; Ok (y :: ys)
  end.

(** ** [to_float], [to_int] and the tagged values *)

(** The builtin [float(x)]. *)
Definition py_float (x : value) : result float :=
  match x with
  | PStr s => match float_of_str s with Some f => Ok f | None => Raise ValueError end
  | PFloat f => Ok f
  | PInt z => match float_of_int z with Some f => Ok f | None => Raise OverflowError end
  | PBool b => match float_of_int (Z.b2z b) with Some f => Ok f | None => Raise OverflowError end
  | PNone | PList _ | PDict _ => Raise TypeError
  end.

(** The builtin [int(x)]. *)
Definition py_int (x : value) : result Z :=
  match x with
  | PStr s => match int_of_str s with Some z => Ok z | None => Raise ValueError end
  | PFloat f => int_of_float f
  | PInt z => Ok z
  | PBool b => Ok (Z.b2z b)
  | PNone | PList _ | PDict _ => Raise TypeError
  end.

Definition to_float (string : value) : result (option float) :=
  match string with
  | PNone => Ok None
  | _ => except_ValueError (py_float string)
  end.

Definition to_int (string : value) : result (option Z) :=
  match string with
  | PNone => Ok None
  | _ => except_ValueError (py_int string)
  end.

(** [FloatValue]: a pair of a value and a unit.  The value is a float or
    [None] where [to_float] made it, and the raw JSON element in the
    merged forecast; the unit is [None] only in the coordinator's
    [noValue]. *)
Definition FloatValue : Type := value * option string.

Definition of_float (v : option float) : value :=
  match v with Some f => PFloat f | None => PNone end.

(** [(to_float(raw), unit)] *)
Definition tag (raw : value) (unit : string) : result FloatValue :=
  v ← to_float raw; Ok (of_float v, Some unit).

(** ** Looking the condition up *)

(** [ICON_TO_CONDITION_MAP.get(icon)] for any key: an [int], a [bool] or
    an integral [float] finds the integer it equals, [None] and a [str]
    find nothing, a list or a dict is unhashable. *)
Definition condition_get (icon : value) : result (option string) :=
  match icon with
  | PInt z => Ok (ICON_TO_CONDITION_MAP !! z)
  | PBool b => Ok (ICON_TO_CONDITION_MAP !! Z.b2z b)
  | PFloat f => Ok (z ← float_as_int f; ICON_TO_CONDITION_MAP !! z)
  | PNone | PStr _ => Ok None
  | PList _ | PDict _ => Raise TypeError
  end.

(** ** The records of [meteo.py] *)

(** [CurrentWeather].  [cw_precipitation], [cw_windDirection] and
    [cw_windSpeed] are the fields [precipitation], [windDirection] and
    [windSpeed] of the class: [Forecast] has fields of the same names. *)
Record CurrentWeather : Type := {
  station : value;
  date : option datetime;
  airTemperature : FloatValue;
  cw_precipitation : FloatValue;
  sunshine : FloatValue;
  globalRadiation : FloatValue;
  relativeHumidity : FloatValue;
  dewPoint : FloatValue;
  cw_windDirection : FloatValue;
  cw_windSpeed : FloatValue;
  gustPeak1s : FloatValue;
  pressureStationLevel : FloatValue;
  pressureSeaLevel : FloatValue;
  pressureSeaLevelAtStandardAtmosphere : FloatValue
}.

Record CurrentState : Type := {
  currentTemperature : FloatValue;
  currentIcon : option Z;
  currentCondition : option string
}.

(** [Forecast]: the fields in the order of the dataclass, so that
    [Build_Forecast] takes its arguments as the positional constructor
    does; the last nine default to [None]. *)
Record Forecast : Type := {
  timestamp : option datetime;
  icon : value;
  condition : option string;
  windSpeed : option FloatValue;
  windDirection : option FloatValue;
  windGustSpeed : option FloatValue;
  temperatureMin : option FloatValue;
  temperatureMean : option FloatValue;
  temperatureMax : option FloatValue;
  precipitationMin : option FloatValue;
  precipitation : option FloatValue;
  precipitationMax : option FloatValue
}.

Record WeatherForecast : Type := {
  current : option CurrentState;
  dailyForecast : list Forecast;
  hourlyForecast : option (list Forecast);
  sunrise : option (list datetime);
  sunset : option (list datetime)
}.

(** ** The current-conditions normalizer *)

(** [datetime.strptime(raw, fmt)] on any value. *)
Definition py_strptime (raw : value) (fmt : string) : result datetime :=
  match raw with
  | PStr s => match strptime s fmt with Some t => Ok t | None => Raise ValueError end
  | _ => Raise TypeError
  end.

(** [(to_float(csv_row.get(key, None)), unit)] *)
Definition tag_field (csv_row : value) (key unit : string) : result FloatValue :=
  raw ← py_get csv_row key PNone; tag raw unit.

Definition _get_current_data_for_row (csv_row : value) : result CurrentWeather :=
  timestamp_raw ← py_get csv_row "Date" PNone;
  timestamp ← match timestamp_raw with
              | PNone => Ok None
              | _ => t ← py_strptime timestamp_raw "%Y%m%d%H%M"; Ok (Some t)
              end;
  f0 ← py_get csv_row "Station/Location" PNone;
  f2 ← tag_field csv_row "tre200s0" "°C";
  f3 ← tag_field csv_row "rre150z0" "mm";
  f4 ← tag_field csv_row "sre000z0" "min";
  f5 ← tag_field csv_row "gre000z0" "W/m²";
  f6 ← tag_field csv_row "ure200s0" "%";
  f7 ← tag_field csv_row "tde200s0" "°C";
  f8 ← tag_field csv_row "dkl010z0" "°";
  f9 ← tag_field csv_row "fu3010z0" "km/h";
  f10 ← tag_field csv_row "fu3010z1" "km/h";
  f11 ← tag_field csv_row "prestas0" "hPa";
  f12 ← tag_field csv_row "prestas0" "hPa";
  f13 ← tag_field csv_row "pp0qnhs0" "hPa";
  Ok (Build_CurrentWeather f0 timestamp f2 f3 f4 f5 f6 f7 f8 f9 f10 f11 f12 f13).

(** What [_get_csv_dictionary_for_url] yields: the rows read, then either
    the end of the feed or an exception of the transport or the decoder. *)
Record csv_feed : Type := {
  feed_rows : list value;
  feed_failure : option exn
}.

(** [s.casefold()] on any value. *)
Definition py_casefold (s : value) : result string :=
  match s with
  | PStr s => Ok (casefold s)
  | _ => Raise AttributeError
  end.

(** [next((row for row in rows if ...), None)]: a [RequestException] is
    caught inside the generator, which then just ends. *)
Fixpoint first_matching_row (rows : list value) (failure : option exn)
    (station : value) : result (option value) :=
  match rows with
  | [] => match failure with
          | None | Some RequestException => Ok None
          | Some e => Raise e
          end
  | row :: rows' =>
      name ← py_getitem row "Station/Location";
      a ← py_casefold name;
      b ← py_casefold station;
      if String.eqb a b then Ok (Some row)
      else first_matching_row rows' failure station
  end.

Definition _get_current_weather_line_for_station (feed : csv_feed)
    (station : value) : result (option value) :=
  match station with
  | PNone => Ok None
  | _ => first_matching_row (feed_rows feed) (feed_failure feed) station
  end.

Definition get_current_weather_for_station (feed : csv_feed)
    (station : value) : result (option CurrentWeather) :=
  data ← _get_current_weather_line_for_station feed station;
  match data with
  | None => Ok None
  | Some row => cw ← _get_current_data_for_row row; Ok (Some cw)
  end.

(** ** The current state of the forecast feed and the daily normalizer *)

Definition of_int (v : option Z) : value :=
  match v with Some z => PInt z | None => PNone end.

Definition _get_current_state (forecastJson : value) : result (option CurrentState) :=
  present ← py_contains "currentWeather" forecastJson;
  if negb present then Ok None
  else
    cw ← py_get forecastJson "currentWeather" (PDict []);
    raw_icon ← py_get cw "icon" PNone;
    currentIcon ← to_int raw_icon;
    let currentCondition :=
      match currentIcon with
      | Some z => ICON_TO_CONDITION_MAP !! z
      | None => None
      end in
    cw' ← py_get forecastJson "currentWeather" (PDict []);
    raw_temperature ← py_get cw' "temperature" PNone;
    temperature ← tag raw_temperature "°C";
    Ok (Some (Build_CurrentState temperature currentIcon currentCondition)).

(** The body of the loop of [_get_daily_forecast]. *)
Definition daily_point (dailyJson : value) : result Forecast :=
  has_date ← py_contains "dayDate" dailyJson;
  timestamp ← (if has_date : bool
               then raw ← py_getitem dailyJson "dayDate";
                    t ← py_strptime raw "%Y-%m-%d"; Ok (Some t)
               else Ok None);
  raw_icon ← py_get dailyJson "iconDay" PNone;
  icon ← to_int raw_icon;
  let condition := z ← icon; ICON_TO_CONDITION_MAP !! z in
  temperatureMax ← tag_field dailyJson "temperatureMax" "°C";
  temperatureMin ← tag_field dailyJson "temperatureMin" "°C";
  precipitation ← tag_field dailyJson "precipitation" "mm";
  Ok (Build_Forecast timestamp (of_int icon) condition
          (Some temperatureMax) (Some temperatureMin) (Some precipitation)
          None None None None None None).

Definition _get_daily_forecast (forecastJson : value) : result (list Forecast) :=
  present ← py_contains "forecast" forecastJson;
  if negb present then Ok []
  else
    days ← py_getitem forecastJson "forecast";
    days ← py_iter days;
    for_each daily_point days.

(** ** The multi-resolution merger *)

(** [[ (value, unit) for value in graphJson.get(key, []) ]] *)
Definition tagged_series (graphJson : value) (key unit : string) : result (list FloatValue) :=
  raw ← py_get graphJson key (PList []);
  values ← py_iter raw;
  Ok ((λ v, (v, Some unit)) <$> (values : list value)).

(** [[ start + delta(value) for value in range(0, n) ]]: the sums are made
    in the order of the range, and the first one that is no datetime
    raises.  (The [timedelta] alone overflows only past 999999999 days,
    three hundred times the span from [datetime.min] to [datetime.max]:
    an earlier sum of the range has raised by then.) *)
Definition timestamp_list (start : datetime) (delta : Z → timedelta) (n : nat)
    : result (list datetime) :=
  for_each (λ v, datetime_add start (delta (Z.of_nat v))) (seq 0 n).

(** The locals of [_get_hourly_forecast] when the loop starts. *)
Record merge_inputs : Type := {
  startTimestamp : datetime;
  startLowResolutionTimestamp : datetime;
  temperatureMax1hList : list FloatValue;
  temperatureMean1hList : list FloatValue;
  temperatureMin1hList : list FloatValue;
  precipitation1hList : list FloatValue;
  preciptiationMax1hList : list FloatValue;
  preciptiationMin1hList : list FloatValue;
  windGustSpeed1hList : list FloatValue;
  windSpeed1hList : list FloatValue;
  precipitation10mList : list FloatValue;
  precipitationMin10mList : list FloatValue;
  precipitationMax10mList : list FloatValue;
  weatherIcon3hList : list value;
  windDirection3hlist : list FloatValue;
  timestamp10mList : list datetime;
  timestamp1hList : list datetime;
  timestamp1hLowResolutionList : list datetime;
  timestamp3hList : list datetime;
  lastTimestamp : datetime
}.

(** The arguments of one [logger.info] line: [l[0]] and [l[-1]]. *)
Definition log_range (l : list datetime) : result unit :=
  _ ← py_first l; _ ← py_last l; Ok ().

(** Lines 224 to 277: [None] where the function returns [None]. *)
Definition read_merge_inputs (forecastJson : value) : result (option merge_inputs) :=
  graphJson ← py_get forecastJson "graph" PNone;
  match graphJson with
  | PNone => Ok None
  | _ =>
    raw_start ← py_get graphJson "start" PNone;
    startTimestampEpoch ← to_int raw_start;
    match startTimestampEpoch with
    | None => Ok None
    | Some startTimestampEpoch =>
      startTimestamp ← fromtimestamp_ms startTimestampEpoch;
      raw_start ← py_get graphJson "startLowResolution" PNone;
      startLowResolutionTimestampEpoch ← to_int raw_start;
      match startLowResolutionTimestampEpoch with
      | None => Ok None
      | Some startLowResolutionTimestampEpoch =>
        startLowResolutionTimestamp ← fromtimestamp_ms startLowResolutionTimestampEpoch;
        temperatureMax1hList ← tagged_series graphJson "temperatureMax1h" "°C";
        temperatureMean1hList ← tagged_series graphJson "temperatureMean1h" "°C";
        temperatureMin1hList ← tagged_series graphJson "temperatureMin1h" "°C";
        precipitation1hList ← tagged_series graphJson "precipitation1h" "mm";
        preciptiationMax1hList ← tagged_series graphJson "precipitationMax1h" "mm";
        preciptiationMin1hList ← tagged_series graphJson "precipitationMin1h" "mm";
        windGustSpeed1hList ← tagged_series graphJson "gustSpeed1h" "km/h";
        windSpeed1hList ← tagged_series graphJson "windSpeed1h" "km/h";
        precipitation10mList ← tagged_series graphJson "precipitation10m" "mm";
        precipitationMin10mList ← tagged_series graphJson "precipitationMin10m" "mm";
        precipitationMax10mList ← tagged_series graphJson "precipitationMax10m" "mm";
        raw_icons ← py_get graphJson "weatherIcon3h" (PList []);
        weatherIcon3hList ← py_iter raw_icons;
        windDirection3hlist ← tagged_series graphJson "windDirection3h" "°";
        timestamp10mList ←
          timestamp_list startTimestamp (λ v, minutes (10 * v))
            (Nat.min (length precipitation10mList) (Nat.min (length precipitationMin10mList)
               (length precipitationMax10mList)));
        timestamp1hList ←
          timestamp_list startTimestamp (λ v, hours v)
            (Nat.min (length temperatureMean1hList) (Nat.min (length temperatureMax1hList)
               (length temperatureMin1hList)));
        timestamp1hLowResolutionList ←
          timestamp_list startLowResolutionTimestamp (λ v, hours v)
            (Nat.min (length precipitation1hList) (Nat.min (length preciptiationMax1hList)
               (Nat.min (length preciptiationMin1hList) (Nat.min (length windGustSpeed1hList)
               (length windSpeed1hList)))));
        timestamp3hList ←
          timestamp_list startTimestamp (λ v, hours (3 * v))
            (Nat.min (length windDirection3hlist) (length weatherIcon3hList));
        log_range timestamp10mList;;
        log_range timestamp1hLowResolutionList;;
        log_range timestamp1hList;;
        log_range timestamp3hList;;
        last10m ← py_last timestamp10mList;
        last1h ← py_last timestamp1hList;
        last1hLowResolution ← py_last timestamp1hLowResolutionList;
        last3h ← py_last timestamp3hList;
        let lastTimestamp :=
          Z.max last10m (Z.max last1h (Z.max last1hLowResolution last3h)) in
        Ok (Some
          {| startTimestamp := startTimestamp;
             startLowResolutionTimestamp := startLowResolutionTimestamp;
             temperatureMax1hList := temperatureMax1hList;
             temperatureMean1hList := temperatureMean1hList;
             temperatureMin1hList := temperatureMin1hList;
             precipitation1hList := precipitation1hList;
             preciptiationMax1hList := preciptiationMax1hList;
             preciptiationMin1hList := preciptiationMin1hList;
             windGustSpeed1hList := windGustSpeed1hList;
             windSpeed1hList := windSpeed1hList;
             precipitation10mList := precipitation10mList;
             precipitationMin10mList := precipitationMin10mList;
             precipitationMax10mList := precipitationMax10mList;
             weatherIcon3hList := weatherIcon3hList;
             windDirection3hlist := windDirection3hlist;
             timestamp10mList := timestamp10mList;
             timestamp1hList := timestamp1hList;
             timestamp1hLowResolutionList := timestamp1hLowResolutionList;
             timestamp3hList := timestamp3hList;
             lastTimestamp := lastTimestamp |})
      end
    end
  end.

(** The variables the loop updates; [readings] counts the readings of the
    wall clock made so far. *)
Record loop_vars : Type := {
  ts : datetime;
  i10m : nat;
  i1h : nat;
  i1hLowResolution : nat;
  i3h : nat;
  forecast : list Forecast;
  readings : nat
}.

(** [i < len(timestampList) and ts == timestampList[i]] *)
Definition fires (timestampList : list datetime) (i : nat) (ts : datetime) : result bool :=
  if bool_decide (i < length timestampList)%nat
  then t ← py_index timestampList i; Ok (bool_decide (ts = t))
  else Ok false.

(** [if i < len(timestampList): nextTimestamp = min(nextTimestamp, timestampList[i])] *)
Definition advance (timestampList : list datetime) (i : nat)
    (nextTimestamp : datetime) : result datetime :=
  if bool_decide (i < length timestampList)%nat
  then t ← py_index timestampList i; Ok (Z.min nextTimestamp t)
  else Ok nextTimestamp.

(** One run of the body of the [while] loop (lines 279 to 323):
    [lastTimestamp + timedelta(minutes=10)] of line 280 and
    [datetime.now(UTC) - timedelta(hours=1)] of line 310 are sums of a
    datetime and a timedelta. *)
Definition merge_iteration (clock : nat → datetime) (s : merge_inputs)
    (st : loop_vars) : result loop_vars :=
  let '{| ts := ts; i10m := i10m; i1h := i1h; i1hLowResolution := i1hLowResolution;
          i3h := i3h; forecast := forecast; readings := readings |} := st in
  nextTimestamp ← datetime_add (lastTimestamp s) (minutes 10);
  hit ← fires (timestamp3hList s) i3h ts;
  '(weatherIcon, windDirection, i3h) ←
    (if hit : bool
     then a ← py_index (weatherIcon3hList s) i3h;
          b ← py_index (windDirection3hlist s) i3h;
          Ok (a, Some b, S i3h)
     else Ok (PNone, None, i3h));
  nextTimestamp ← advance (timestamp3hList s) i3h nextTimestamp;
  hit ← fires (timestamp1hList s) i1h ts;
  '(temperatureMin, temperatureMean, temperatureMax, i1h) ←
    (if hit : bool
     then a ← py_index (temperatureMin1hList s) i1h;
          b ← py_index (temperatureMean1hList s) i1h;
          c ← py_index (temperatureMax1hList s) i1h;
          Ok (Some a, Some b, Some c, S i1h)
     else Ok (None, None, None, i1h));
  nextTimestamp ← advance (timestamp1hList s) i1h nextTimestamp;
  hit ← fires (timestamp1hLowResolutionList s) i1hLowResolution ts;
  '(precipitationMin, precipitation, precipitationMax, windGustSpeed, windSpeed,
    i1hLowResolution) ←
    (if hit : bool
     then a ← py_index (preciptiationMin1hList s) i1hLowResolution;
          b ← py_index (precipitation1hList s) i1hLowResolution;
          c ← py_index (preciptiationMax1hList s) i1hLowResolution;
          d ← py_index (windGustSpeed1hList s) i1hLowResolution;
          e ← py_index (windSpeed1hList s) i1hLowResolution;
          Ok (Some a, Some b, Some c, Some d, Some e, S i1hLowResolution)
     else Ok (None, None, None, None, None, i1hLowResolution));
  nextTimestamp ← advance (timestamp1hLowResolutionList s) i1hLowResolution nextTimestamp;
  hit ← fires (timestamp10mList s) i10m ts;
  '(precipitationMin, precipitation, precipitationMax, i10m) ←
    (if hit : bool
     then a ← py_index (precipitationMin10mList s) i10m;
          b ← py_index (precipitation10mList s) i10m;
          c ← py_index (precipitationMax10mList s) i10m;
          Ok (Some a, Some b, Some c, S i10m)
     else Ok (precipitationMin, precipitation, precipitationMax, i10m));
  nextTimestamp ← advance (timestamp10mList s) i10m nextTimestamp;
  cutoff ← datetime_add (clock readings) (- hours 1);
  forecast ←
    (if bool_decide (cutoff ≤ ts)
     then condition ← condition_get weatherIcon;
          Ok (forecast ++
            [ {| timestamp := Some ts;
                 icon := weatherIcon;
                 condition := condition;
                 windSpeed := windSpeed;
                 windDirection := windDirection;
                 windGustSpeed := windGustSpeed;
                 temperatureMin := temperatureMin;
                 temperatureMean := temperatureMean;
                 temperatureMax := temperatureMax;
                 precipitationMin := precipitationMin;
                 precipitation := precipitation;
                 precipitationMax := precipitationMax |} ])
     else Ok forecast);
  Ok {| ts := nextTimestamp; i10m := i10m; i1h := i1h;
          i1hLowResolution := i1hLowResolution; i3h := i3h;
          forecast := forecast; readings := S readings |}.

(** [while ts <= lastTimestamp: ...], with a fuel: [None] is out of fuel. *)
Fixpoint merge_loop (fuel : nat) (clock : nat → datetime) (s : merge_inputs)
    (st : loop_vars) : option (result loop_vars) :=
  match fuel with
  | O => None
  | S fuel' =>
      if bool_decide (ts st ≤ lastTimestamp s)
      then match merge_iteration clock s st with
           | Ok st' => merge_loop fuel' clock s st'
           | Raise e => Some (Raise e)
           end
      else Some (Ok st)
  end.

(** The loop variables at line 271. *)
Definition initial_vars (s : merge_inputs) : loop_vars :=
  {| ts := Z.min (startTimestamp s) (startLowResolutionTimestamp s);
     i10m := 0; i1h := 0; i1hLowResolution := 0; i3h := 0;
     forecast := []; readings := 0 |}.

Definition _get_hourly_forecast (fuel : nat) (clock : nat → datetime)
    (forecastJson : value) : option (result (option (list Forecast))) :=
  match read_merge_inputs forecastJson with
  | Raise e => Some (Raise e)
  | Ok None => Some (Ok None)
  | Ok (Some s) =>
      match merge_loop fuel clock s (initial_vars s) with
      | None => None
      | Some (Raise e) => Some (Raise e)
      | Some (Ok st) =>
          Some (_ ← py_first (forecast st); _ ← py_last (forecast st);
                Ok (Some (forecast st)))
      end
  end.

(** ** The assembly *)

(** [datetime.fromtimestamp(epoch / 1000, UTC)] on any value. *)
Definition py_fromtimestamp_ms (epoch : value) : result datetime :=
  match epoch with
  | PInt z => fromtimestamp_ms z
  | PBool b => fromtimestamp_ms (Z.b2z b)
  | PFloat f => fromtimestamp_ms_float f
  | _ => Raise TypeError
  end.

(** The sunrise or sunset marks of [get_forecast]. *)
Definition sun_marks (forecastJson : value) (key : string) : result (option (list datetime)) :=
  graphJson ← py_get forecastJson "graph" (PDict []);
  marksJson ← py_get graphJson key PNone;
  match marksJson with
  | PNone => Ok None
  | _ => epochs ← py_iter marksJson;
         marks ← for_each py_fromtimestamp_ms epochs;
         Ok (Some marks)
  end.

(** [_get_forecast_json], given what the body of its [try] does. *)
Definition _get_forecast_json (response : result value) : result value :=
  match response with
  | Raise RequestException => Ok PNone
  | _ => response
  end.

Definition get_forecast (fuel : nat) (clock : nat → datetime)
    (response : result value) : option (result (option WeatherForecast)) :=
  match _get_forecast_json response with
  | Raise e => Some (Raise e)
  | Ok PNone => Some (Ok None)
  | Ok forecastJson =>
    match _get_current_state forecastJson with
    | Raise e => Some (Raise e)
    | Ok currentState =>
      match _get_daily_forecast forecastJson with
      | Raise e => Some (Raise e)
      | Ok dailyForecast =>
        match _get_hourly_forecast fuel clock forecastJson with
        | None => None
        | Some (Raise e) => Some (Raise e)
        | Some (Ok hourlyForecast) =>
            Some (sunrises ← sun_marks forecastJson "sunrise";
                  sunsets ← sun_marks forecastJson "sunset";
                  Ok (Some (Build_WeatherForecast currentState dailyForecast
                                hourlyForecast sunrises sunsets)))
        end
      end
    end
  end.

(** ** The coordinator *)

Definition noValue : FloatValue := (PNone, None).

(** [_async_update_data]: [now] is what [datetime.now] reads in the
    fallback; every exception of the second [try] becomes [UpdateFailed]. *)
Definition _async_update_data (fuel : nat) (clock : nat → datetime) (now : datetime)
    (station_code : value) (feed : csv_feed) (response : result value)
    : option (result (CurrentWeather * option WeatherForecast)) :=
  let current_state :=
    match station_code with
    | PNone => None
    | _ => match get_current_weather_for_station feed station_code with
           | Ok current_state => current_state
           | Raise _ => None
           end
    end in
  match get_forecast fuel clock response with
  | None => None
  | Some (Raise _) => Some (Raise UpdateFailed)
  | Some (Ok current_forecast) =>
      match current_state with
      | Some current_state => Some (Ok (current_state, current_forecast))
      | None =>
          match current_forecast ≫= current with
          | None => Some (Raise UpdateFailed)
          | Some current =>
              Some (Ok (Build_CurrentWeather PNone (Some now)
                          (currentTemperature current)
                          noValue noValue noValue noValue noValue noValue
                          noValue noValue noValue noValue noValue,
                        current_forecast))
          end
      end
  end.

End Model.

(** ** A reference runtime

    An instance of [PyBuiltins] on which the model runs: floats are exact
    rationals, numerals are plain decimal ones, [casefold] lowers the ASCII
    letters, and [strptime] knows the two formats of the client. *)

Module RefRuntime.

Definition digit (a : ascii) : option Z :=
  let n := Z.of_nat (nat_of_ascii a) in
  if bool_decide (48 ≤ n ≤ 57) then Some (n - 48) else None.

Fixpoint digits (acc : Z) (l : list ascii) : option Z :=
  match l with
  | [] => Some acc
  | a :: l' => d ← digit a; digits (10 * acc + d) l'
  end.

(** A non-empty run of decimal digits. *)
Definition numeral (l : list ascii) : option Z :=
  match l with [] => None | _ => digits 0 l end.

Definition signed {A} (neg : A → A) (parse : list ascii → option A)
    (l : list ascii) : option A :=
  match l with
  | "-"%char :: l' => neg <$> parse l'
  | _ => parse l
  end.

Definition int_of_str (s : string) : option Z :=
  signed Z.opp numeral (String.list_ascii_of_string s).

Fixpoint split_dot (l : list ascii) : list ascii * option (list ascii) :=
  match l with
  | [] => ([], None)
  | "."%char :: l' => ([], Some l')
  | a :: l' => let '(p, q) := split_dot l' in (a :: p, q)
  end.

Definition decimal (l : list ascii) : option Q :=
  match split_dot l with
  | (p, None) => inject_Z <$> numeral p
  | (p, Some q) =>
      n ← numeral p; m ← numeral q;
      Some (Qred (Qmake (n * 10 ^ Z.of_nat (length q) + m)
                    (Z.to_pos (10 ^ Z.of_nat (length q)))))
  end.

Definition float_of_str (s : string) : option Q :=
  signed Qopp decimal (String.list_ascii_of_string s).

Definition float_as_int (q : Q) : option Z :=
  if bool_decide (Z.rem (Qnum q) (Z.pos (Qden q)) = 0)
  then Some (Z.quot (Qnum q) (Z.pos (Qden q))) else None.

Definition lower (a : ascii) : ascii :=
  let n := nat_of_ascii a in
  if bool_decide (65 ≤ n ≤ 90)%nat then ascii_of_nat (n + 32) else a.

Definition casefold (s : string) : string :=
  String.string_of_list_ascii (lower <$> String.list_ascii_of_string s).

(** Days from 1970-01-01 to the given civil date. *)
Definition days_from_civil (y m d : Z) : Z :=
  let y := if bool_decide (m ≤ 2) then y - 1 else y in
  let era := y / 400 in
  let yoe := y - era * 400 in
  let doy := (153 * (if bool_decide (m ≤ 2) then m + 9 else m - 3) + 2) / 5 + d - 1 in
  let doe := yoe * 365 + yoe / 4 - yoe / 100 + doy in
  era * 146097 + doe - 719468.

Definition instant (y m d h mi : Z) : option Z :=
  if bool_decide (1 ≤ y ≤ 9999 ∧ 1 ≤ m ≤ 12 ∧ 1 ≤ d ≤ 31 ∧ 0 ≤ h ≤ 23 ∧ 0 ≤ mi ≤ 59)
  then Some (((days_from_civil y m d * 24 + h) * 60 + mi) * 60000000)
  else None.

Definition strptime (s fmt : string) : option Z :=
  match fmt, String.list_ascii_of_string s with
  | "%Y-%m-%d"%string, [y1; y2; y3; y4; "-"%char; m1; m2; "-"%char; d1; d2] =>
      y ← numeral [y1; y2; y3; y4]; m ← numeral [m1; m2]; d ← numeral [d1; d2];
      instant y m d 0 0
  | "%Y%m%d%H%M"%string, [y1; y2; y3; y4; m1; m2; d1; d2; h1; h2; i1; i2] =>
      y ← numeral [y1; y2; y3; y4]; m ← numeral [m1; m2]; d ← numeral [d1; d2];
      h ← numeral [h1; h2]; mi ← numeral [i1; i2];
      instant y m d h mi
  | _, _ => None
  end.

(** Microseconds from milliseconds, within the years 1 to 9999. *)
Definition in_range (t : Z) : result Z :=
  if bool_decide (-62135596800000000 ≤ t < 253402300800000000)
  then Ok t else Raise ValueError.

Definition builtins : PyBuiltins Q :=
  Build_PyBuiltins Q
    float_of_str
    (λ z, Some (inject_Z z))
    int_of_str
    (λ q, Ok (Z.quot (Qnum q) (Z.pos (Qden q))))
    float_as_int
    casefold
    strptime
    (λ z, in_range (z * 1000))
    (λ q, in_range (Qnum q * 1000 / Z.pos (Qden q))).

End RefRuntime.


(** The categories section 4.2 of the specification lists. *)
Definition spec_categories : list string :=
  [ "clear-night"; "cloudy"; "fog"; "hail"; "lightning"; "lightning-rainy";
    "partly-cloudy"; "pouring"; "rainy"; "snowy"; "snowy-rainy"; "sunny";
    "windy"; "windy-variant"; "exceptional" ]%string.

(** The categories of the table: the keys of [CONDITION_CLASSES]. *)
Definition table_categories : list string := CONDITION_CLASSES.*1.

(** The pairs (code, category) of the table. *)
Definition table_pairs : list (Z * string) :=
  kv ← CONDITION_CLASSES; (λ i, (i, kv.1)) <$> kv.2.

(** ** Example inputs, on the reference runtime *)

(** A row of the station feed. *)
Definition example_row : pyval Q :=
  PDict [ ("Station/Location", PStr "SMA"); ("Date", PStr "202401021230");
          ("tre200s0", PStr "3.5"); ("rre150z0", PStr "0.0");
          ("sre000z0", PStr "7"); ("gre000z0", PStr "112");
          ("ure200s0", PStr "81.4"); ("tde200s0", PStr "0.6");
          ("dkl010z0", PStr "240"); ("fu3010z0", PStr "9.4");
          ("fu3010z1", PStr "17.3"); ("prestas0", PStr "955.2");
          ("pp0sl0", PStr "1021.9"); ("pp0qnhs0", PStr "1020.1") ]%string.

(** A day of the [forecast] array of the forecast feed. *)
Definition example_day : pyval Q :=
  PDict [ ("dayDate", PStr "2024-01-02"); ("iconDay", PInt 1);
          ("temperatureMax", PInt 10); ("temperatureMin", PInt 2);
          ("precipitation", PFloat (1 # 2)) ]%string.

Definition example_daily_payload : pyval Q :=
  PDict [ ("forecast", PList [example_day]) ]%string.

(** The forecast feed: noon of 2024-01-02 is 1704196800000 ms. *)
Definition example_graph : list (string * pyval Q) :=
  [ ("start", PInt 1704196800000);
    ("startLowResolution", PInt 1704200400000);
    ("temperatureMax1h", PList [PInt 4; PInt 5]);
    ("temperatureMean1h", PList [PInt 3; PInt 4]);
    ("temperatureMin1h", PList [PInt 2; PInt 3]);
    ("precipitation1h", PList [PInt 1; PInt 0]);
    ("precipitationMax1h", PList [PInt 2; PInt 1]);
    ("precipitationMin1h", PList [PInt 0; PInt 0]);
    ("gustSpeed1h", PList [PInt 30; PInt 25]);
    ("windSpeed1h", PList [PInt 12; PInt 10]);
    ("precipitation10m", PList [PInt 1; PInt 2; PInt 3]);
    ("precipitationMin10m", PList [PInt 0; PInt 1; PInt 2]);
    ("precipitationMax10m", PList [PInt 2; PInt 3; PInt 4]);
    ("weatherIcon3h", PList [PInt 5; PInt 1]);
    ("windDirection3h", PList [PInt 180; PInt 200]);
    ("sunrise", PList [PInt 1704179400000]);
    ("sunset", PList [PInt 1704210600000]) ]%string.

Definition example_current : pyval Q :=
  PDict [ ("icon", PInt 5); ("temperature", PFloat (7 # 2)) ]%string.

Definition example_payload : pyval Q :=
  PDict [ ("currentWeather", example_current);
          ("forecast", PList [example_day]);
          ("graph", PDict example_graph) ]%string.

(** The same payload, its [graph] without [start]. *)
Definition example_payload_no_start : pyval Q :=
  PDict [ ("currentWeather", example_current);
          ("forecast", PList [example_day]);
          ("graph", PDict (tail example_graph)) ]%string.

(** The scenario of section 8: a 10-minute series of three values and a
    3-hourly series of one icon, both starting at [T]; no hourly series. *)
Definition scenario_payload : pyval Q :=
  PDict [ ("graph", PDict
      [ ("start", PInt 1704196800000);
        ("startLowResolution", PInt 1704196800000);
        ("precipitation10m", PList [PInt 1; PInt 2; PInt 3]);
        ("precipitationMin10m", PList [PInt 1; PInt 2; PInt 3]);
        ("precipitationMax10m", PList [PInt 1; PInt 2; PInt 3]);
        ("weatherIcon3h", PList [PInt 5]);
        ("windDirection3h", PList [PInt 180]) ]) ]%string.

(** A station feed of one row, for station SMA. *)
Definition example_feed : @csv_feed Q :=
  {| feed_rows := [example_row]; feed_failure := None |}.

(** A wall clock that stands still at 12:30, and one at 13:10. *)
Definition clock_1230 : nat → Z := λ _, 1704198600000000.
Definition clock_1310 : nat → Z := λ _, 1704201000000000.

(** ** Notions the properties of the merger are stated with *)

(** The instants [start + delta(0)], ..., [start + delta(n - 1)]. *)
Definition instants (start : Z) (delta : Z → Z) (n : nat) : list Z :=
  (λ v, start + delta (Z.of_nat v)) <$> seq 0 n.

(** A list of instants in strictly increasing order. *)
Definition increasing (L : list Z) : Prop :=
  ∀ i j a b, (i < j)%nat → L !! i = Some a → L !! j = Some b → a < b.

(** A series seen by the loop: its list of instants and its cursor. *)
Definition track : Type := list Z * nat.

(** The four series with their cursors, in the order the loop treats them. *)
Definition tracks {float} (s : @merge_inputs float) (st : @loop_vars float) : list track :=
  [ (timestamp3hList s, i3h st);
    (timestamp1hList s, i1h st);
    (timestamp1hLowResolutionList s, i1hLowResolution st);
    (timestamp10mList s, i10m st) ].

(** The cursor after the test [i < len(l) and ts == l[i]] and its [i += 1]. *)
Definition bump (ts : Z) (tr : track) : track :=
  (tr.1, if bool_decide (tr.1 !! tr.2 = Some ts) then S tr.2 else tr.2).

(** [nextTimestamp] after [if i < len(l): nextTimestamp = min(nextTimestamp, l[i])]. *)
Definition upcoming (nextTimestamp : Z) (tr : track) : Z :=
  match tr.1 !! tr.2 with
  | Some t => Z.min nextTimestamp t
  | None => nextTimestamp
  end.

(** The elements the cursors have not passed. *)
Definition remaining (T : list track) : nat :=
  foldr (λ tr n, (length tr.1 - tr.2 + n)%nat) 0%nat T.

(** [t] is an instant of one of the four series. *)
Definition on_timeline {float} (s : @merge_inputs float) (t : Z) : Prop :=
  t ∈ timestamp10mList s ∨ t ∈ timestamp1hList s ∨
  t ∈ timestamp1hLowResolutionList s ∨ t ∈ timestamp3hList s.

(** [p] is stamped strictly before [q]. *)
Definition before {float} (p q : @Forecast float) : Prop :=
  ∃ t u, timestamp p = Some t ∧ timestamp q = Some u ∧ t < u.


(** No cursor points at an instant before [t]; at an instant up to [t];
    some cursor points at [t]. *)
Definition ahead (t : Z) (T : list track) : Prop :=
  Forall (λ tr, ∀ u, tr.1 !! tr.2 = Some u → t ≤ u) T.

Definition past (t : Z) (T : list track) : Prop :=
  Forall (λ tr, ∀ u, tr.1 !! tr.2 = Some u → t < u) T.

Definition matched (t : Z) (T : list track) : Prop :=
  Exists (λ tr, tr.1 !! tr.2 = Some t) T.


(** The lists of instants of the four series. *)
Definition series_of {float} (s : @merge_inputs float) : list (list Z) :=
  [ timestamp3hList s; timestamp1hList s;
    timestamp1hLowResolutionList s; timestamp10mList s ].

(** What the loop relies on: each list of instants increases and ends no
    later than [lastTimestamp], none starts before the first value of
    [ts], and that first value is an instant of a series. *)
Definition well_formed {float} (s : @merge_inputs float) : Prop :=
  Forall increasing (series_of s) ∧
  Forall (Forall (λ t, t ≤ lastTimestamp s)) (series_of s) ∧
  Forall (λ L, ∀ t, L !! 0%nat = Some t →
            Z.min (startTimestamp s) (startLowResolutionTimestamp s) ≤ t)
         (series_of s) ∧
  on_timeline s (Z.min (startTimestamp s) (startLowResolutionTimestamp s)).

(** The invariant of the loop: no cursor is behind [ts]; [ts] is an instant
    of a series unless the loop is over; every point of the forecast is
    stamped before [ts] with an instant of a series that passed the test
    against the clock; every instant a cursor passed that passes the test
    whatever the clock reads has its point; the forecast is in strictly
    increasing order. *)
Definition merge_invariant {float} (clock : nat → Z) (s : @merge_inputs float)
    (st : @loop_vars float) : Prop :=
  ahead (ts st) (tracks s st) ∧
  (on_timeline s (ts st) ∨ lastTimestamp s < ts st) ∧
  Forall (λ p, ∃ t, timestamp p = Some t ∧ t < ts st ∧ on_timeline s t ∧
                    ∃ k, clock k - hours 1 ≤ t) (forecast st) ∧
  Forall (λ tr : track, ∀ i t, (i < tr.2)%nat → tr.1 !! i = Some t →
            (∀ k, clock k - hours 1 ≤ t) →
            ∃ p, p ∈ forecast st ∧ timestamp p = Some t) (tracks s st) ∧
  StronglySorted before (forecast st).


(** The locals of the merger on [example_payload] when the loop starts. *)
Definition example_inputs : @merge_inputs Q :=
  Eval vm_compute in
    match @read_merge_inputs Q RefRuntime.builtins example_payload with
    | Ok (Some s) => s
    | _ => Build_merge_inputs 0 0 [] [] [] [] [] [] [] [] [] [] [] [] [] [] [] [] [] 0
    end.


(** What the assembly gives on [example_payload] with fuel 10 at 12:30. *)
Definition example_forecast : @WeatherForecast Q :=
  Eval vm_compute in
    match @get_forecast Q RefRuntime.builtins 10 clock_1230 (Ok example_payload) with
    | Some (Ok (Some wf)) => wf
    | _ => Build_WeatherForecast None [] None None None
    end.

Definition example_state : @CurrentState Q :=
  {| currentTemperature := (PFloat (7 # 2), Some "°C"%string);
     currentIcon := Some 5;
     currentCondition := Some "cloudy"%string |}.


(** The same payload, the [start] of its [graph] a text that is no numeral. *)
Definition example_payload_text_start : pyval Q :=
  PDict [ ("currentWeather", example_current);
          ("forecast", PList [example_day]);
          ("graph", PDict (("start", PStr "soon") :: tail example_graph)) ]%string.


(** ** More of the client and the weather entity *)

Section Callers.
Context {float : Type} `{!PyBuiltins float}.

(** [get_current_weather_for_all_stations]: the rows are normalized as the
    feed yields them; a [RequestException] of the transport just ends the
    feed, any other exception of the feed is raised after its rows. *)
Definition get_current_weather_for_all_stations (feed : @csv_feed float)
    : result (list (@CurrentWeather float)) :=
  weather ← for_each _get_current_data_for_row (feed_rows feed);
  match feed_failure feed with
  | None | Some RequestException => Ok weather
  | Some e => Raise e
  end.

(** What [coordinator.data] holds: [None] before the first poll that
    succeeds, then what [_async_update_data] returned. *)
Definition coordinator_data : Type :=
  option (@CurrentWeather float * option (@WeatherForecast float)).

(** The dict the constructor [Forecast] of Home Assistant makes from its
    keyword arguments in [weather.py]. *)
Record EntityForecast : Type := {
  fc_condition : option string;
  fc_datetime : option datetime;
  fc_native_precipitation : pyval float;
  fc_native_temperature : pyval float;
  fc_native_templow : pyval float;
  fc_native_wind_speed : pyval float;
  fc_wind_bearing : pyval float
}.

(** [x[0]] for a tagged value or [None]. *)
Definition subscript0 (x : option (@FloatValue float)) : result (pyval float) :=
  match x with
  | Some v => Ok v.1
  | None => Raise TypeError
  end.

Definition meteo_forecast_to_forecast (hourly : bool) (meteo_forecast : @Forecast float)
    : result EntityForecast :=
  '(temperature, wind_speed, wind_bearing) ←
    (if hourly
     then temperature ← subscript0 (temperatureMean meteo_forecast);
          wind_speed ← subscript0 (windSpeed meteo_forecast);
          wind_bearing ← subscript0 (windDirection meteo_forecast);
          Ok (temperature, wind_speed, wind_bearing)
     else temperature ← subscript0 (temperatureMax meteo_forecast);
          Ok (temperature, PNone, PNone));
  native_precipitation ← subscript0 (precipitation meteo_forecast);
  native_templow ← subscript0 (temperatureMin meteo_forecast);
  Ok {| fc_condition := condition meteo_forecast;
        fc_datetime := timestamp meteo_forecast;
        fc_native_precipitation := native_precipitation;
        fc_native_temperature := temperature;
        fc_native_templow := native_templow;
        fc_native_wind_speed := wind_speed;
        fc_wind_bearing := wind_bearing |}.

(** [list(filter(lambda forecast: forecast.timestamp >= now, l))]: a point
    without a timestamp cannot be compared. *)
Fixpoint not_before (now : datetime) (l : list (@Forecast float))
    : result (list (@Forecast float)) :=
  match l with
  | [] => Ok []
  | p :: l' =>
      match timestamp p with
      | None => Raise TypeError
      | Some t => rest ← not_before now l';
                  Ok (if bool_decide (now ≤ t) then p :: rest else rest)
      end
  end.

(** The property [forecast] of the entity [SwissWeather]; [now] is what
    [datetime.utcnow] reads. *)
Definition SwissWeather_forecast (hourly : bool) (now : datetime)
    (data : coordinator_data) : result (option (list EntityForecast)) :=
  match data ≫= snd with
  | None => Ok None
  | Some current_forecast =>
      forecast_data ←
        (if hourly
         then match hourlyForecast current_forecast with
              | None => Raise TypeError
              | Some points => _ ← py_first points; not_before now points
              end
         else Ok (dailyForecast current_forecast));
      entries ← for_each (meteo_forecast_to_forecast hourly) forecast_data;
      Ok (Some entries)
  end.

(** The number a cell of a row of the station feed holds, if any. *)
Definition cell (d : list (string * pyval float)) (key : string) : option float :=
  match dict_lookup d key with
  | Some (PStr s) => float_of_str s
  | _ => None
  end.

End Callers.

(** ** Notions the further properties are stated with *)

(** Every value of the dict is a text or [None]: a row of [csv.DictReader]. *)
Definition text_cells {float} (d : list (string * pyval float)) : Prop :=
  Forall (λ kv, kv.2 = PNone ∨ ∃ s, kv.2 = PStr s) d.

(** The index of the instant [t] in a list of instants. *)
Definition index_of (t : Z) (L : list Z) : option nat :=
  fst <$> list_find (λ u, u = t) L.

(** The index the test of the loop finds at the cursor [c]. *)
Definition fired_at (L : list Z) (c : nat) (t : Z) : option nat :=
  if bool_decide (L !! c = Some t) then Some c else None.

(** The point for the instant [t], given the index of [t] in each series
    where it has one: the values of the 10-minute series come before those
    of the hourly one. *)
Definition build_point {float} (s : @merge_inputs float) (t : Z) (cond : option string)
    (at3h at1h at1hLow at10m : option nat) : @Forecast float :=
  let low (V : list (@FloatValue float)) := i ← at1hLow; V !! i in
  let fine (V10 V1 : list (@FloatValue float)) :=
    match at10m with Some i => V10 !! i | None => low V1 end in
  {| timestamp := Some t;
     icon := default PNone (i ← at3h; weatherIcon3hList s !! i);
     condition := cond;
     windSpeed := low (windSpeed1hList s);
     windDirection := i ← at3h; windDirection3hlist s !! i;
     windGustSpeed := low (windGustSpeed1hList s);
     temperatureMin := i ← at1h; temperatureMin1hList s !! i;
     temperatureMean := i ← at1h; temperatureMean1hList s !! i;
     temperatureMax := i ← at1h; temperatureMax1hList s !! i;
     precipitationMin := fine (precipitationMin10mList s) (preciptiationMin1hList s);
     precipitation := fine (precipitation10mList s) (precipitation1hList s);
     precipitationMax := fine (precipitationMax10mList s) (preciptiationMax1hList s) |}.

(** The point that carries, for the instant [t], what each series holds
    at [t]. *)
Definition point_at {float} (s : @merge_inputs float) (t : Z) (cond : option string)
    : @Forecast float :=
  build_point s t cond
    (index_of t (timestamp3hList s)) (index_of t (timestamp1hList s))
    (index_of t (timestamp1hLowResolutionList s)) (index_of t (timestamp10mList s)).

(** Every instant a cursor has passed is before [t]. *)
Definition behind (t : Z) (T : list track) : Prop :=
  Forall (λ tr, ∀ i u, (i < tr.2)%nat → tr.1 !! i = Some u → u < t) T.

(** Every point of the forecast is the point of its instant, with the
    category of its icon. *)
Definition merge_provenance {float} `{!PyBuiltins float} (s : @merge_inputs float)
    (st : @loop_vars float) : Prop :=
  behind (ts st) (tracks s st) ∧
  Forall (λ p, ∃ t, p = point_at s t (condition p) ∧
                    condition_get (icon p) = Ok (condition p)) (forecast st).


(** ** Example inputs of the further properties *)

(** The cells of [example_row]. *)
Definition example_cells : list (string * pyval Q) :=
  match example_row with
  | PDict d => d
  | _ => []
  end.

(** A station feed the transport cuts after its first row. *)
Definition example_feed_cut : @csv_feed Q :=
  {| feed_rows := [example_row]; feed_failure := Some RequestException |}.

(** A row of another station, and a feed where it comes first; what
    follows the row of SMA cannot be normalized, and the feed ends in an
    error. *)
Definition example_row_ber : pyval Q :=
  PDict [ ("Station/Location", PStr "BER"); ("Date", PStr "202401021230");
          ("tre200s0", PStr "-") ]%string.

Definition example_feed_two : @csv_feed Q :=
  {| feed_rows := [example_row_ber; example_row; PNone];
     feed_failure := Some ValueError |}.

(** [example_payload] with a [graph] that is [null]. *)
Definition example_null_graph : list (string * pyval Q) :=
  [ ("currentWeather", example_current);
    ("forecast", PList [example_day]);
    ("graph", PNone) ]%string.

(** [example_payload] with a [forecast] that is [null]. *)
Definition example_null_forecast : list (string * pyval Q) :=
  [ ("currentWeather", example_current);
    ("forecast", PNone);
    ("graph", PDict example_graph) ]%string.

(** The items of [example_payload_no_start]. *)
Definition example_no_start : list (string * pyval Q) :=
  [ ("currentWeather", example_current);
    ("forecast", PList [example_day]);
    ("graph", PDict (tail example_graph)) ]%string.

(** [example_payload], the [start] of its [graph] a list. *)
Definition example_payload_list_start : pyval Q :=
  PDict [ ("currentWeather", example_current);
          ("forecast", PList [example_day]);
          ("graph", PDict (("start", PList [PInt 1704196800000])
                             :: tail example_graph)) ]%string.

(** A payload with no [graph] section and a day whose [dayDate] is no
    date. *)
Definition example_payload_no_graph_bad_day : pyval Q :=
  PDict [ ("currentWeather", example_current);
          ("forecast", PList [PDict [("dayDate", PStr "tomorrow")]]) ]%string.

(** [example_payload] with a second day, whose [dayDate] is no date. *)
Definition example_bad_day : list (string * pyval Q) :=
  [ ("currentWeather", example_current);
    ("forecast", PList [example_day; PDict [("dayDate", PStr "tomorrow")]]);
    ("graph", PDict example_graph) ]%string.

(** A wall clock that stands still at 17:00, two hours after the latest
    instant of [example_graph]. *)
Definition clock_1700 : nat → Z := λ _, 1704214800000000.

(** A forecast feed whose series all start, and end, at 23:55 of the last
    day of the year 9999: 253402300500000 ms. *)
Definition example_payload_9999 : pyval Q :=
  PDict [ ("graph", PDict
      [ ("start", PInt 253402300500000);
        ("startLowResolution", PInt 253402300500000);
        ("temperatureMax1h", PList [PInt 4]);
        ("temperatureMean1h", PList [PInt 3]);
        ("temperatureMin1h", PList [PInt 2]);
        ("precipitation1h", PList [PInt 1]);
        ("precipitationMax1h", PList [PInt 2]);
        ("precipitationMin1h", PList [PInt 0]);
        ("gustSpeed1h", PList [PInt 30]);
        ("windSpeed1h", PList [PInt 12]);
        ("precipitation10m", PList [PInt 1]);
        ("precipitationMin10m", PList [PInt 0]);
        ("precipitationMax10m", PList [PInt 2]);
        ("weatherIcon3h", PList [PInt 5]);
        ("windDirection3h", PList [PInt 180]) ]) ]%string.

Definition example_inputs_9999 : @merge_inputs Q :=
  Eval vm_compute in
    match @read_merge_inputs Q RefRuntime.builtins example_payload_9999 with
    | Ok (Some s) => s
    | _ => example_inputs
    end.


(** * Properties *)

Lemma ICON_TO_CONDITION_MAP_pairs : ICON_TO_CONDITION_MAP = list_to_map table_pairs.
Proof. vm_compute. reflexivity. Qed.

Lemma table_pairs_NoDup : NoDup table_pairs.*1.
Proof. apply (bool_decide_unpack (NoDup table_pairs.*1)). vm_compute. exact I. Qed.

(** Closes a decidable closed goal by evaluation. *)
Ltac by_compute :=
  match goal with
  | |- ?P => apply (bool_decide_unpack P); vm_compute; exact I
  end.

Lemma table_categories_spec :
  table_categories = <[6%nat := "partlycloudy"%string]> spec_categories.
Proof. reflexivity. Qed.

Lemma table_pairs_elem (z : Z) (k : string) :
  (z, k) ∈ table_pairs ↔ ∃ codes, (k, codes) ∈ CONDITION_CLASSES ∧ z ∈ codes.
Proof.
  unfold table_pairs. rewrite list_elem_of_bind. split.
  - intros ([k' codes] & Hin & Hcl). apply list_elem_of_fmap in Hin as (i & Heq & Hi).
    simpl in *. injection Heq as -> ->. eauto.
  - intros (codes & Hcl & Hz). exists (k, codes). split; [|done].
    apply list_elem_of_fmap. eauto.
Qed.

Lemma condition_map_lookup (z : Z) (k : string) :
  ICON_TO_CONDITION_MAP !! z = Some k ↔
  ∃ codes, (k, codes) ∈ CONDITION_CLASSES ∧ z ∈ codes.
Proof.
  rewrite ICON_TO_CONDITION_MAP_pairs, <- table_pairs_elem.
  symmetry. apply elem_of_list_to_map, table_pairs_NoDup.
Qed.

Section Properties.
Context {float : Type} `{!PyBuiltins float}.

Implicit Types (raw icon csv_row forecastJson dailyJson : pyval float).
Implicit Types (st : @loop_vars float).
Implicit Types (p q : @Forecast float).

(** *** Inversion of the binds of [result] *)

Lemma bind_Ok {A B} (m : result A) (f : A → result B) (b : B) :
  m ≫= f = Ok b ↔ ∃ a, m = Ok a ∧ f a = Ok b.
Proof.
  destruct m as [a|e]; simpl; split.
  - eauto.
  - by intros (a' & [= ->] & ?).
  - discriminate.
  - by intros (? & ? & ?).
Qed.

Lemma Ok_bind {A B} (a : A) (f : A → result B) : Ok a ≫= f = f a.
Proof. reflexivity. Qed.

Ltac inv_bind :=
  repeat match goal with
  | H : _ ≫= _ = Ok _ |- _ =>
      let a := fresh "a" in let E := fresh "E" in
      apply bind_Ok in H as (a & E & H)
  | H : Ok _ = Ok _ |- _ => injection H as H
  | H : Raise _ = Ok _ |- _ => discriminate H
  end.

(** *** The sum of a datetime and a timedelta *)

Lemma datetime_add_Ok (t d r : Z) :
  datetime_add t d = Ok r ↔ r = t + d ∧ datetime_min ≤ t + d ≤ datetime_max.
Proof.
  unfold datetime_add. case_bool_decide; split.
  - by intros [= <-].
  - by intros [-> _].
  - discriminate.
  - by intros [_ ?].
Qed.

Lemma datetime_add_Raise (t d : Z) (e : exn) :
  datetime_add t d = Raise e ↔
  e = OverflowError ∧ ¬ datetime_min ≤ t + d ≤ datetime_max.
Proof.
  unfold datetime_add. case_bool_decide; split.
  - discriminate.
  - by intros [_ ?].
  - by intros [= <-].
  - by intros [-> _].
Qed.

Lemma datetime_add_in_range (t d : Z) :
  datetime_min ≤ t + d ≤ datetime_max → datetime_add t d = Ok (t + d).
Proof. intros. by apply datetime_add_Ok. Qed.

(** ** The condition mapper *)

(** C7 (as amended).  An integer code listed under a category of the table
    maps to exactly that category, the categories of the table are the
    fifteen of section 4.2 with [partlycloudy] written without a hyphen,
    a code the table does not list maps to the absent condition, and the
    lookup of an integer code raises nothing. *)
Theorem condition_mapper_table (z : Z) :
  (∀ k, ICON_TO_CONDITION_MAP !! z = Some k ↔
        ∃ codes, (k, codes) ∈ CONDITION_CLASSES ∧ z ∈ codes) ∧
  (∀ k, ICON_TO_CONDITION_MAP !! z = Some k →
        k ∈ <[6%nat := "partlycloudy"%string]> spec_categories) ∧
  (ICON_TO_CONDITION_MAP !! z = None ↔
     ∀ k codes, (k, codes) ∈ CONDITION_CLASSES → z ∉ codes) ∧
  condition_get (float := float) (PInt z) = Ok (ICON_TO_CONDITION_MAP !! z).
Proof.
  split; [intros k; apply condition_map_lookup|].
  split; [|split; [|done]].
  - intros k (codes & Hcl & _)%condition_map_lookup.
    rewrite <- table_categories_spec. unfold table_categories.
    apply list_elem_of_fmap. by exists (k, codes).
  - split.
    + intros Hnone k codes Hcl Hz.
      assert (ICON_TO_CONDITION_MAP !! z = Some k) as Hk
        by (apply condition_map_lookup; eauto).
      congruence.
    + intros Hno. destruct (ICON_TO_CONDITION_MAP !! z) as [k|] eqn:Hk; [|done].
      apply condition_map_lookup in Hk as (codes & Hcl & Hz).
      by destruct (Hno k codes).
Qed.

(** ** The value tagger *)

(** C8.  A null raw text, and a text [float] does not parse, are tagged as
    the absent value with the given unit, and nothing is raised; a text
    that parses is tagged as the parsed number with the given unit. *)
Theorem value_tagger_text (s unit : string) :
  to_float (float := float) PNone = Ok None ∧
  tag (float := float) PNone unit = Ok (PNone, Some unit) ∧
  to_float (PStr s) = Ok (float_of_str s) ∧
  tag (PStr s) unit =
    Ok (match float_of_str s with Some f => PFloat f | None => PNone end, Some unit).
Proof.
  unfold tag, to_float, py_float. simpl.
  by destruct (float_of_str s).
Qed.

(** ** The current-conditions normalizer *)

(** C10.  In the record made from a row, the station-level pressure and the
    sea-level pressure are the same tagged value: both are the field
    [prestas0] of the row, tagged in hPa. *)
Theorem pressure_levels_equal csv_row (cw : CurrentWeather) :
  _get_current_data_for_row csv_row = Ok cw →
  pressureStationLevel cw = pressureSeaLevel cw ∧
  tag_field csv_row "prestas0" "hPa" = Ok (pressureSeaLevel cw).
Proof.
  unfold _get_current_data_for_row. intros H. inv_bind. subst cw. simpl.
  split; [congruence | done].
Qed.

(** ** The daily normalizer *)

Lemma for_each_Forall2 {A B} (body : A → result B) (l : list A) (r : list B) :
  for_each body l = Ok r → Forall2 (λ x y, body x = Ok y) l r.
Proof.
  revert r. induction l as [|x l IH]; simpl; intros r H.
  - injection H as <-. constructor.
  - inv_bind. subst r. constructor; [done | by apply IH].
Qed.

(** The point made from a day: the three tagged values are the fourth to
    sixth positional arguments of [Forecast], which are its fields
    [windSpeed], [windDirection] and [windGustSpeed]. *)
Lemma daily_point_fields dailyJson (p : Forecast) :
  daily_point dailyJson = Ok p →
  ∃ tmax tmin pr,
    tag_field dailyJson "temperatureMax" "°C" = Ok tmax ∧
    tag_field dailyJson "temperatureMin" "°C" = Ok tmin ∧
    tag_field dailyJson "precipitation" "mm" = Ok pr ∧
    windSpeed p = Some tmax ∧ windDirection p = Some tmin ∧
    windGustSpeed p = Some pr ∧
    temperatureMax p = None ∧ temperatureMin p = None ∧ precipitation p = None.
Proof.
  unfold daily_point. intros H. inv_bind. subst p. simpl. eauto 12.
Qed.


(** C3 (the code departs from it).  Every point the daily normalizer emits
    comes from an element of the array, and carries the tagged
    [temperatureMax], [temperatureMin] and [precipitation] of that element
    in its fields [windSpeed], [windDirection] and [windGustSpeed]; its
    fields [temperatureMax], [temperatureMin] and [precipitation] are
    absent. *)
Theorem daily_forecast_misplaced_fields forecastJson (days : list Forecast) (p : Forecast) :
  _get_daily_forecast forecastJson = Ok days →
  p ∈ days →
  ∃ elems dailyJson tmax tmin pr,
    py_getitem forecastJson "forecast" ≫= py_iter = Ok elems ∧
    dailyJson ∈ elems ∧
    tag_field dailyJson "temperatureMax" "°C" = Ok tmax ∧
    tag_field dailyJson "temperatureMin" "°C" = Ok tmin ∧
    tag_field dailyJson "precipitation" "mm" = Ok pr ∧
    windSpeed p = Some tmax ∧ windDirection p = Some tmin ∧
    windGustSpeed p = Some pr ∧
    temperatureMax p = None ∧ temperatureMin p = None ∧ precipitation p = None.
Proof.
  unfold _get_daily_forecast. intros H Hp. inv_bind.
  destruct (negb a); [injection H as <-; by apply elem_of_nil in Hp|].
  inv_bind. apply for_each_Forall2 in H.
  apply list_elem_of_lookup in Hp as (i & Hi).
  destruct (Forall2_lookup_r _ _ _ _ _ H Hi) as (d & Hd & Hpoint).
  apply daily_point_fields in Hpoint as (tmax & tmin & pr & Hfields).
  exists a1, d, tmax, tmin, pr. split; [by rewrite E0|].
  split; [by eapply list_elem_of_lookup_2 | done].
Qed.


(** ** The assembly and the poll *)

Lemma to_int_unparseable raw :
  raw = PNone ∨ py_int raw = Raise ValueError → to_int raw = Ok None.
Proof.
  intros [-> | Hraw]; [done|].
  unfold to_int. rewrite Hraw. by destruct raw.
Qed.





(** C5 (as amended).  When the payload is an object with no [graph]
    section, or one whose [graph] section is an object with a [start] that
    is missing, null or rejected by [int] with a [ValueError] (a text that
    is no numeral), or with a usable [start] and such a
    [startLowResolution], the merger returns no fine-grained sequence,
    whatever the fuel; the assembly is then exactly what the current
    state, the daily normalizer and the sun marks give, with an absent
    fine-grained sequence, and with no sunrise and sunset when there is no
    [graph] section; when those three succeed and a current state is
    there, from the station or from the forecast feed, the poll succeeds;
    and every poll that succeeds carries such a forecast. *)
Theorem missing_start_instant fuel clock (d : list (string * pyval float)) :
  (dict_lookup d "graph" = None ∨
   (∃ g raw, dict_lookup d "graph" = Some (PDict g) ∧
      py_get (PDict g) "start" PNone = Ok raw ∧
      (raw = PNone ∨ py_int raw = Raise ValueError)) ∨
   (∃ g raw e t raw', dict_lookup d "graph" = Some (PDict g) ∧
      py_get (PDict g) "start" PNone = Ok raw ∧
      to_int raw = Ok (Some e) ∧ fromtimestamp_ms e = Ok t ∧
      py_get (PDict g) "startLowResolution" PNone = Ok raw' ∧
      (raw' = PNone ∨ py_int raw' = Raise ValueError))) →
  _get_hourly_forecast fuel clock (PDict d) = Some (Ok None) ∧
  get_forecast fuel clock (Ok (PDict d)) =
    Some (cs ← _get_current_state (PDict d);
          days ← _get_daily_forecast (PDict d);
          sunrises ← sun_marks (PDict d) "sunrise";
          sunsets ← sun_marks (PDict d) "sunset";
          Ok (Some (Build_WeatherForecast cs days None sunrises sunsets))) ∧
  (dict_lookup d "graph" = None →
     sun_marks (PDict d) "sunrise" = Ok None ∧ sun_marks (PDict d) "sunset" = Ok None) ∧
  ∀ (now : Z) station_code (feed : csv_feed),
    (∀ cs days sunrises sunsets,
       _get_current_state (PDict d) = Ok cs →
       _get_daily_forecast (PDict d) = Ok days →
       sun_marks (PDict d) "sunrise" = Ok sunrises →
       sun_marks (PDict d) "sunset" = Ok sunsets →
       (is_Some cs ∨
        ∃ cw, station_code ≠ PNone ∧
              get_current_weather_for_station feed station_code = Ok (Some cw)) →
       ∃ cw, _async_update_data fuel clock now station_code feed (Ok (PDict d)) =
               Some (Ok (cw, Some (Build_WeatherForecast cs days None
                                     sunrises sunsets)))) ∧
    (∀ cw wf,
       _async_update_data fuel clock now station_code feed (Ok (PDict d)) =
         Some (Ok (cw, wf)) →
       ∃ cs days sunrises sunsets,
         _get_current_state (PDict d) = Ok cs ∧
         _get_daily_forecast (PDict d) = Ok days ∧
         sun_marks (PDict d) "sunrise" = Ok sunrises ∧
         sun_marks (PDict d) "sunset" = Ok sunsets ∧
         wf = Some (Build_WeatherForecast cs days None sunrises sunsets)).
Proof.
  intros Hstart.
  assert (read_merge_inputs (PDict d) = Ok None) as Hread.
  { unfold read_merge_inputs.
    destruct Hstart as [Hg | [(g & raw & Hg & Hraw & Hno)
                             | (g & raw & e & t & raw' & Hg & Hraw & He & Ht & Hraw' & Hno)]].
    - assert (py_get (PDict d) "graph" PNone = Ok PNone) as ->
        by (unfold py_get; by rewrite Hg).
      reflexivity.
    - assert (py_get (PDict d) "graph" PNone = Ok (PDict g)) as ->
        by (unfold py_get; by rewrite Hg).
      rewrite Ok_bind. cbv beta iota.
      rewrite Hraw, Ok_bind, (to_int_unparseable _ Hno). reflexivity.
    - assert (py_get (PDict d) "graph" PNone = Ok (PDict g)) as ->
        by (unfold py_get; by rewrite Hg).
      rewrite Ok_bind. cbv beta iota.
      rewrite Hraw, Ok_bind, He, Ok_bind. cbv beta iota.
      rewrite Ht, Ok_bind, Hraw', Ok_bind, (to_int_unparseable _ Hno).
      reflexivity. }
  assert (_get_hourly_forecast fuel clock (PDict d) = Some (Ok None)) as Hhourly
    by (unfold _get_hourly_forecast; by rewrite Hread).
  assert (get_forecast fuel clock (Ok (PDict d)) =
    Some (cs ← _get_current_state (PDict d);
          days ← _get_daily_forecast (PDict d);
          sunrises ← sun_marks (PDict d) "sunrise";
          sunsets ← sun_marks (PDict d) "sunset";
          Ok (Some (Build_WeatherForecast cs days None sunrises sunsets)))) as Hget.
  { unfold get_forecast, _get_forecast_json. rewrite Hhourly.
    destruct (_get_current_state _); [|done].
    by destruct (_get_daily_forecast _). }
  split; [done | split; [done | split]].
  { intros Hg. unfold sun_marks, py_get. by rewrite Hg. }
  intros now station_code feed. split.
  - intros cs days sunrises sunsets Hcs Hdays Hrise Hset Hcurrent.
    unfold _async_update_data. rewrite Hget, Hcs, Hdays, Hrise, Hset. simpl.
    destruct Hcurrent as [[c ->] | (cw & Hcode & Hcw)].
    + match goal with
      | |- context [match ?c with Some _ => _ | None => _ end] => destruct c
      end; eauto.
    + rewrite Hcw. destruct station_code; by eauto.
  - intros cw wf. unfold _async_update_data. rewrite Hget.
    destruct (_get_current_state (PDict d)) as [cs|]; [|by destruct station_code].
    destruct (_get_daily_forecast (PDict d)) as [days|]; [|by destruct station_code].
    destruct (sun_marks (PDict d) "sunrise") as [sunrises|]; [|by destruct station_code].
    destruct (sun_marks (PDict d) "sunset") as [sunsets|]; [|by destruct station_code].
    simpl. intros Hpoll. exists cs, days, sunrises, sunsets.
    repeat (split; [done|]).
    match type of Hpoll with
    | context [match ?c with Some _ => _ | None => _ end] => destruct c
    end; [by injection Hpoll as _ <-|].
    destruct cs; [by injection Hpoll as _ <-|done].
Qed.


(** ** The merger: one run of the body *)

Lemma fires_spec (L : list Z) (i : nat) (t : Z) :
  fires L i t = Ok (bool_decide (L !! i = Some t)).
Proof.
  unfold fires, py_index. case_bool_decide as Hi.
  - destruct (lookup_lt_is_Some_2 L i Hi) as [u Hu]. rewrite Hu. simpl.
    f_equal. apply bool_decide_ext. split; congruence.
  - rewrite (lookup_ge_None_2 L i) by lia. by rewrite bool_decide_eq_false_2.
Qed.

Lemma advance_spec (L : list Z) (i : nat) (n : Z) :
  advance L i n = Ok (upcoming n (L, i)).
Proof.
  unfold advance, upcoming, py_index. simpl. case_bool_decide as Hi.
  - destruct (lookup_lt_is_Some_2 L i Hi) as [u Hu]. by rewrite Hu.
  - by rewrite (lookup_ge_None_2 L i) by lia.
Qed.

(** What one run of the body does to the cursors, to [ts], to the count of
    clock readings and to the forecast. *)
Lemma merge_iteration_Ok clock (s : @merge_inputs float) (st st' : @loop_vars float) :
  merge_iteration clock s st = Ok st' →
  tracks s st' = bump (ts st) <$> tracks s st ∧
  ts st' = foldl upcoming (lastTimestamp s + minutes 10) (tracks s st') ∧
  readings st' = S (readings st) ∧
  ((forecast st' = forecast st ∧ ¬ clock (readings st) - hours 1 ≤ ts st) ∨
   (∃ p, forecast st' = forecast st ++ [p] ∧ timestamp p = Some (ts st) ∧
         clock (readings st) - hours 1 ≤ ts st)).
Proof.
  unfold merge_iteration. destruct st as [t c10 c1 c1l c3 fc k]. simpl.
  rewrite !fires_spec. intros H.
  repeat match goal with
  | H : _ ≫= _ = Ok _ |- _ =>
      let a := fresh "a" in let E := fresh "E" in
      apply bind_Ok in H as (a & E & H)
  | H : (let '(_, _) := ?x in _) = Ok _ |- _ => destruct x
  | H : Ok _ = Ok _ |- _ => injection H as H
  end.
  rewrite advance_spec in *.
  repeat match goal with
  | H : Ok _ = Ok _ |- _ => injection H as H
  | H : datetime_add _ _ = Ok _ |- _ => apply datetime_add_Ok in H as [? _]
  end.
  simplify_eq. unfold tracks, bump. simpl.
  repeat case_bool_decide; inv_bind; simplify_eq; simpl;
  (split; [done | split; [done | split; [done|]]]);
  (left; split; [done | lia]) || (right; eexists; split; [done | split; [done | lia]]).
Qed.


(** ** The merger: cursors and next instant *)

Lemma bump_past (t : Z) (T : list track) :
  Forall (λ tr, increasing tr.1) T → ahead t T → past t (bump t <$> T).
Proof.
  unfold ahead, past. intros Hinc Hahead. apply Forall_fmap.
  assert (Forall (λ tr, increasing tr.1 ∧ ∀ u, tr.1 !! tr.2 = Some u → t ≤ u) T)
    as Hboth by (by apply Forall_and).
  eapply Forall_impl; [exact Hboth|].
  intros [L c] [HL Hc] u. unfold bump. simpl in *. case_bool_decide as Hm.
  - intros Hu. eapply (HL c (S c)); eauto.
  - intros Hu. specialize (Hc u Hu).
    assert (u ≠ t) by congruence. lia.
Qed.

Lemma upcoming_le (n : Z) (tr : track) : upcoming n tr ≤ n.
Proof. unfold upcoming. destruct (tr.1 !! tr.2); lia. Qed.

Lemma upcoming_foldl_le (T : list track) (n : Z) : foldl upcoming n T ≤ n.
Proof.
  revert n. induction T as [|tr T IH]; intros n; simpl; [lia|].
  specialize (IH (upcoming n tr)). pose proof (upcoming_le n tr). lia.
Qed.

Lemma upcoming_foldl_ahead (T : list track) (n : Z) :
  ahead (foldl upcoming n T) T.
Proof.
  unfold ahead. revert n. induction T as [|tr T IH]; intros n; simpl; constructor.
  - intros u Hu. pose proof (upcoming_foldl_le T (upcoming n tr)).
    assert (upcoming n tr ≤ u) by (unfold upcoming; rewrite Hu; lia). lia.
  - apply IH.
Qed.

Lemma upcoming_foldl_cases (T : list track) (n : Z) :
  foldl upcoming n T = n ∨ matched (foldl upcoming n T) T.
Proof.
  unfold matched. revert n. induction T as [|tr T IH]; intros n; simpl; [by left|].
  destruct (IH (upcoming n tr)) as [Heq | Hm].
  - rewrite Heq. unfold upcoming. destruct (tr.1 !! tr.2) as [u|] eqn:Hu; [|by left].
    destruct (Z.min_spec n u) as [[_ ->] | [_ ->]]; [by left|].
    right. by apply Exists_cons_hd.
  - right. by apply Exists_cons_tl.
Qed.

Lemma upcoming_foldl_gt (T : list track) (t n : Z) :
  past t T → t < n → t < foldl upcoming n T.
Proof.
  unfold past. revert n. induction T as [|tr T IH]; intros n HT Hn; simpl; [done|].
  apply Forall_cons in HT as [Htr HT]. apply IH; [done|].
  unfold upcoming. destruct (tr.1 !! tr.2) as [u|]; [|done].
  specialize (Htr u eq_refl). lia.
Qed.

Lemma remaining_cons (tr : track) (T : list track) :
  remaining (tr :: T) = (length tr.1 - tr.2 + remaining T)%nat.
Proof. reflexivity. Qed.

Lemma bump_pair (t : Z) (L : list Z) (c : nat) :
  bump t (L, c) = (L, if bool_decide (L !! c = Some t) then S c else c).
Proof. reflexivity. Qed.

Lemma remaining_bump_le (t : Z) (T : list track) :
  (remaining (bump t <$> T) ≤ remaining T)%nat.
Proof.
  induction T as [|[L c] T IH]; [done|].
  rewrite fmap_cons, !remaining_cons, bump_pair. simpl.
  case_bool_decide; lia.
Qed.

Lemma remaining_bump_lt (t : Z) (T : list track) :
  matched t T → (remaining (bump t <$> T) < remaining T)%nat.
Proof.
  unfold matched.
  induction 1 as [[L c] T Hm | [L c] T _ IH];
    rewrite fmap_cons, !remaining_cons, bump_pair; simpl in *.
  - pose proof (remaining_bump_le t T). pose proof (lookup_lt_Some _ _ _ Hm).
    rewrite bool_decide_eq_true_2 by done. lia.
  - case_bool_decide; lia.
Qed.

(** The loop stops, from any values of its variables: a run of the body
    either moves a cursor or sets [ts] to an instant a cursor points at,
    or to one past [lastTimestamp]. *)
Lemma merge_loop_stops clock (s : @merge_inputs float) (fuel : nat) st :
  (0 < fuel)%nat →
  (ts st ≤ lastTimestamp s → matched (ts st) (tracks s st) →
     (remaining (tracks s st) < fuel)%nat) →
  (ts st ≤ lastTimestamp s → ¬ matched (ts st) (tracks s st) →
     (remaining (tracks s st) + 1 < fuel)%nat) →
  is_Some (merge_loop fuel clock s st).
Proof.
  revert st. induction fuel as [|fuel IH]; intros st Hpos Hm Hn; [lia|].
  simpl. case_bool_decide as Hts; [|eauto].
  destruct (merge_iteration clock s st) as [st'|e] eqn:Hit; [|eauto].
  apply merge_iteration_Ok in Hit as (Htr & Hnext & _ & _).
  pose proof (remaining_bump_le (ts st) (tracks s st)) as Hle.
  rewrite <- Htr in Hle.
  assert (remaining (tracks s st') < fuel)%nat as Hlt.
  { destruct (decide (matched (ts st) (tracks s st))) as [Hyes | Hno].
    - pose proof (remaining_bump_lt _ _ Hyes) as H. rewrite <- Htr in H.
      specialize (Hm Hts Hyes). lia.
    - specialize (Hn Hts Hno). lia. }
  apply IH; [lia | done |].
  intros Hts' Hno.
  destruct (upcoming_foldl_cases (tracks s st') (lastTimestamp s + minutes 10))
    as [Heq | Hyes].
  - rewrite <- Hnext in Heq. unfold minutes in Heq. lia.
  - rewrite <- Hnext in Hyes. done.
Qed.


(** ** The merger: the lists of instants *)

Lemma instants_lookup (start : Z) (delta : Z → Z) (n i : nat) (t : Z) :
  instants start delta n !! i = Some t ↔
  (i < n)%nat ∧ t = start + delta (Z.of_nat i).
Proof.
  unfold instants. rewrite list_lookup_fmap. split.
  - intros H. destruct (seq 0 n !! i) as [v|] eqn:Hv; [|done].
    apply lookup_seq in Hv as [-> ?]. simpl in H. by injection H as <-.
  - intros [Hi ->]. by rewrite (lookup_seq_lt _ _ _ Hi).
Qed.

Lemma instants_increasing (start : Z) (delta : Z → Z) (n : nat) :
  (∀ x y, x < y → delta x < delta y) →
  increasing (instants start delta n).
Proof.
  intros Hd i j a b Hij [_ ->]%instants_lookup [_ ->]%instants_lookup.
  specialize (Hd (Z.of_nat i) (Z.of_nat j)). lia.
Qed.

Lemma instants_first (start : Z) (delta : Z → Z) (n : nat) (t : Z) :
  delta 0 = 0 → instants start delta n !! 0%nat = Some t → t = start.
Proof.
  intros Hd [_ ->]%instants_lookup.
  change (Z.of_nat 0) with 0. lia.
Qed.

Lemma instants_nonempty (start : Z) (delta : Z → Z) (n : nat) (t : Z) :
  delta 0 = 0 → last (instants start delta n) = Some t →
  instants start delta n !! 0%nat = Some start.
Proof.
  intros Hd Hl. apply instants_lookup. destruct n; [done|].
  change (Z.of_nat 0) with 0. split; lia.
Qed.

Lemma increasing_last (L : list Z) (m : Z) :
  increasing L → last L = Some m → Forall (λ t, t ≤ m) L.
Proof.
  intros Hinc Hlast. rewrite last_lookup in Hlast.
  apply Forall_lookup. intros i t Hi.
  pose proof (lookup_lt_Some _ _ _ Hi).
  destruct (decide (i = pred (length L))) as [-> | Hne].
  - assert (t = m) by congruence. lia.
  - assert (t < m); [|lia]. eapply (Hinc i (pred (length L))); eauto. lia.
Qed.

Lemma py_last_Ok {A} (l : list A) (x : A) : py_last l = Ok x → last l = Some x.
Proof. unfold py_last. destruct (last l); [congruence | done]. Qed.

Lemma timestamp_list_Ok (start : Z) (delta : Z → Z) (n : nat) (L : list Z) :
  timestamp_list start delta n = Ok L →
  L = instants start delta n ∧ Forall (λ t, datetime_min ≤ t ≤ datetime_max) L.
Proof.
  unfold timestamp_list, instants. intros H%for_each_Forall2.
  induction H as [|v t l L' Hv _ [-> IH]]; [by split|].
  apply datetime_add_Ok in Hv as [-> ?]. split; [done|]. by constructor.
Qed.

(** Lines 224 to 277 read backwards, when they reach the loop. *)
Ltac read_inversion H :=
  unfold read_merge_inputs in H;
  let g := fresh "g" in let Hg := fresh "Hg" in
  apply bind_Ok in H as (g & Hg & H);
  destruct g; try discriminate H;
  (let raw := fresh "raw" in let Hraw := fresh "Hraw" in
   apply bind_Ok in H as (raw & Hraw & H); try discriminate Hraw);
  (let e := fresh "e" in let He := fresh "He" in
   apply bind_Ok in H as ([e|] & He & H); [|discriminate H]);
  (let t0 := fresh "t" in let Ht0 := fresh "Ht" in
   apply bind_Ok in H as (t0 & Ht0 & H));
  (let raw := fresh "raw" in let Hraw := fresh "Hraw" in
   apply bind_Ok in H as (raw & Hraw & H));
  (let e := fresh "e" in let He := fresh "He" in
   apply bind_Ok in H as ([e|] & He & H); [|discriminate H]);
  inv_bind;
  repeat match goal with
  | H' : py_last _ = Ok _ |- _ => apply py_last_Ok in H'
  | H' : timestamp_list _ _ _ = Ok _ |- _ =>
      let Hr := fresh "Hrange" in apply timestamp_list_Ok in H' as [-> Hr]
  end;
  simplify_eq; simpl in *.

(** What lines 224 to 277 leave in the locals when they reach the loop. *)
Lemma read_merge_inputs_Some forecastJson (s : @merge_inputs float) :
  read_merge_inputs forecastJson = Ok (Some s) →
  ∃ (n10 n1 n1l n3 : nat) (a b c d : Z),
    timestamp10mList s =
      instants (startTimestamp s) (λ v, minutes (10 * v)) n10 ∧
    timestamp1hList s = instants (startTimestamp s) (λ v, hours v) n1 ∧
    timestamp1hLowResolutionList s =
      instants (startLowResolutionTimestamp s) (λ v, hours v) n1l ∧
    timestamp3hList s =
      instants (startTimestamp s) (λ v, hours (3 * v)) n3 ∧
    last (timestamp10mList s) = Some a ∧
    last (timestamp1hList s) = Some b ∧
    last (timestamp1hLowResolutionList s) = Some c ∧
    last (timestamp3hList s) = Some d ∧
    lastTimestamp s = Z.max a (Z.max b (Z.max c d)).
Proof.
  intros H. read_inversion H. eauto 20.
Qed.

(** The instants read from a payload are datetimes. *)
Lemma read_in_range forecastJson (s : @merge_inputs float) :
  read_merge_inputs forecastJson = Ok (Some s) →
  Forall (Forall (λ t, datetime_min ≤ t ≤ datetime_max)) (series_of s) ∧
  datetime_min ≤ lastTimestamp s ≤ datetime_max.
Proof.
  intros H. read_inversion H. split; [by repeat constructor|].
  repeat match goal with
  | Hl : last ?L = Some ?x, Hr : Forall _ ?L |- _ =>
      apply last_Some_elem_of in Hl;
      rewrite Forall_forall in Hr; specialize (Hr _ Hl); clear Hl
  end.
  lia.
Qed.


Lemma read_well_formed forecastJson (s : @merge_inputs float) :
  read_merge_inputs forecastJson = Ok (Some s) → well_formed s.
Proof.
  intros (n10 & n1 & n1l & n3 & a & b & c & d & E10 & E1 & E1l & E3
          & La & Lb & Lc & Ld & Elast)%read_merge_inputs_Some.
  assert (increasing (timestamp10mList s)) as I10
    by (rewrite E10; apply instants_increasing; unfold minutes; lia).
  assert (increasing (timestamp1hList s)) as I1
    by (rewrite E1; apply instants_increasing; unfold hours; lia).
  assert (increasing (timestamp1hLowResolutionList s)) as I1l
    by (rewrite E1l; apply instants_increasing; unfold hours; lia).
  assert (increasing (timestamp3hList s)) as I3
    by (rewrite E3; apply instants_increasing; unfold hours; lia).
  split; [|split; [|split]].
  - by repeat constructor.
  - repeat constructor;
      (eapply Forall_impl; [eapply increasing_last; eassumption|]);
      intros t Ht; simpl in Ht; lia.
  - repeat constructor; intros t Ht;
      [ rewrite E3 in Ht | rewrite E1 in Ht | rewrite E1l in Ht | rewrite E10 in Ht ];
      apply instants_first in Ht; try reflexivity; lia.
  - unfold on_timeline.
    destruct (Z.min_spec (startTimestamp s) (startLowResolutionTimestamp s))
      as [[_ ->] | [_ ->]].
    + left. rewrite E10 in *. eapply list_elem_of_lookup_2.
      by eapply instants_nonempty.
    + right; right; left. rewrite E1l in *. eapply list_elem_of_lookup_2.
      by eapply instants_nonempty.
Qed.

(** ** The merger: the invariant of the loop *)

Lemma series_of_tracks (s : @merge_inputs float) st :
  (tracks s st).*1 = series_of s.
Proof. reflexivity. Qed.

Lemma on_timeline_series (s : @merge_inputs float) (t : Z) :
  on_timeline s t ↔ ∃ L, L ∈ series_of s ∧ t ∈ L.
Proof.
  unfold on_timeline, series_of. split.
  - intros [H | [H | [H | H]]]; eexists; (split; [|exact H]); set_solver.
  - intros (L & HL & Ht).
    repeat (apply elem_of_cons in HL as [-> | HL]; [tauto|]).
    by apply elem_of_nil in HL.
Qed.

Lemma tracks_series (s : @merge_inputs float) st (P : list Z → Prop) :
  Forall P (series_of s) → Forall (λ tr : track, P tr.1) (tracks s st).
Proof. rewrite <- (series_of_tracks s st). by rewrite Forall_fmap. Qed.

Lemma matched_on_timeline (s : @merge_inputs float) st (t : Z) :
  matched t (tracks s st) → on_timeline s t.
Proof.
  unfold matched. rewrite Exists_exists. intros ([L c] & Hin & Hm).
  apply on_timeline_series. exists L. split.
  - rewrite <- (series_of_tracks s st). apply list_elem_of_fmap. by exists (L, c).
  - by eapply list_elem_of_lookup_2.
Qed.

Lemma initial_invariant clock (s : @merge_inputs float) :
  well_formed s → merge_invariant clock s (initial_vars s).
Proof.
  intros (_ & _ & Hfirst & Hline).
  split; [|split; [|split; [|split]]]; simpl.
  - unfold ahead, tracks. simpl. unfold series_of in Hfirst.
    repeat (apply Forall_cons in Hfirst as [? Hfirst]).
    by repeat constructor.
  - by left.
  - constructor.
  - apply Forall_forall. intros tr Htr i t Hi.
    unfold tracks in Htr. simpl in Htr.
    repeat (apply elem_of_cons in Htr as [-> | Htr]; [simpl in Hi; lia|]).
    by apply elem_of_nil in Htr.
  - constructor.
Qed.

Lemma merge_iteration_invariant clock (s : @merge_inputs float) (st st' : @loop_vars float) :
  well_formed s →
  merge_invariant clock s st →
  ts st ≤ lastTimestamp s →
  merge_iteration clock s st = Ok st' →
  merge_invariant clock s st'.
Proof.
  intros (Hinc & Hbound & _ & _) (Hahead & Hline & Hpts & Hdone & Hsorted) Hts Hit.
  apply merge_iteration_Ok in Hit as (Htr & Hnext & _ & Hfc).
  assert (past (ts st) (tracks s st')) as Hpast
    by (rewrite Htr; apply bump_past; [by apply tracks_series | done]).
  assert (ts st < ts st') as Hlt
    by (rewrite Hnext; apply upcoming_foldl_gt; [done | unfold minutes; lia]).
  assert (on_timeline s (ts st)) as Hnow by (destruct Hline; [done | lia]).
  assert (∀ p, p ∈ forecast st → p ∈ forecast st') as Hkeep.
  { intros p Hp. destruct Hfc as [[-> _] | (q & -> & _)]; [done|].
    apply elem_of_app. by left. }
  split; [|split; [|split; [|split]]].
  - rewrite Hnext. apply upcoming_foldl_ahead.
  - destruct (upcoming_foldl_cases (tracks s st') (lastTimestamp s + minutes 10))
      as [Heq | Hm]; rewrite <- Hnext in *.
    + right. unfold minutes in Heq. lia.
    + left. by eapply matched_on_timeline.
  - assert (Forall (λ p, ∃ t, timestamp p = Some t ∧ t < ts st' ∧ on_timeline s t ∧
                              ∃ k, clock k - hours 1 ≤ t) (forecast st)) as Hold.
    { eapply Forall_impl; [exact Hpts|].
      intros p (t & ? & ? & ? & ?). exists t. repeat split; [done | lia | done..]. }
    destruct Hfc as [[-> _] | (q & -> & Hq & Hk)]; [done|].
    apply Forall_app. split; [done|]. constructor; [|constructor].
    exists (ts st). eauto.
  - rewrite Htr. apply Forall_fmap.
    eapply Forall_impl; [exact Hdone|].
    intros [L c] Hc i t. rewrite bump_pair. simpl in *. intros Hi Hit Hall.
    destruct (decide (i < c)%nat) as [Hlt' | Hge].
    + destruct (Hc i t Hlt' Hit Hall) as (p & Hp & Htp). eauto.
    + case_bool_decide as Hm; [|lia].
      assert (i = c) as -> by lia. assert (t = ts st) as -> by congruence.
      destruct Hfc as [[_ Hno] | (q & -> & Hq & _)].
      * destruct Hno. apply Hall.
      * exists q. split; [|done]. apply elem_of_app. right. by apply list_elem_of_here.
  - destruct Hfc as [[-> _] | (q & -> & Hq & _)]; [done|].
    apply StronglySorted_app_2; [|done|repeat constructor].
    intros p r Hp Hr. apply list_elem_of_singleton in Hr as ->.
    rewrite Forall_forall in Hpts. destruct (Hpts p Hp) as (t & Ht & Hlt' & _).
    exists t, (ts st). done.
Qed.

Lemma merge_loop_invariant clock (s : @merge_inputs float) (fuel : nat) (st st' : @loop_vars float) :
  well_formed s →
  merge_invariant clock s st →
  merge_loop fuel clock s st = Some (Ok st') →
  merge_invariant clock s st' ∧ lastTimestamp s < ts st'.
Proof.
  intros Hwf. revert st. induction fuel as [|fuel IH]; intros st Hinv; simpl; [done|].
  case_bool_decide as Hts.
  - destruct (merge_iteration clock s st) as [st1|e] eqn:Hit; [|done].
    intros Hloop. apply (IH st1); [|done].
    by eapply merge_iteration_invariant.
  - intros [= <-]. split; [done | lia].
Qed.


(** ** The merger: the forecast it returns *)

Lemma get_hourly_forecast_Some fuel clock forecastJson (out : list (@Forecast float)) :
  _get_hourly_forecast fuel clock forecastJson = Some (Ok (Some out)) →
  ∃ (s : @merge_inputs float) st,
    read_merge_inputs forecastJson = Ok (Some s) ∧
    merge_loop fuel clock s (initial_vars s) = Some (Ok st) ∧
    forecast st = out.
Proof.
  unfold _get_hourly_forecast. intros H.
  destruct (read_merge_inputs forecastJson) as [[s|]|]; [|done..].
  destruct (merge_loop fuel clock s (initial_vars s)) as [[st|]|] eqn:Hloop;
    [|done..].
  injection H as H. inv_bind. simplify_eq. eauto.
Qed.

Lemma StronglySorted_lookup_lt {A} (R : relation A) (l : list A) (i j : nat) (x y : A) :
  StronglySorted R l → (i < j)%nat → l !! i = Some x → l !! j = Some y → R x y.
Proof.
  intros Hs Hij Hi Hj. rewrite <- (take_drop j l) in Hs.
  eapply StronglySorted_app_1_elem_of; [exact Hs | |].
  - eapply list_elem_of_lookup_2. by rewrite lookup_take_lt.
  - eapply list_elem_of_lookup_2 with (i := 0%nat). rewrite lookup_drop.
    by rewrite Nat.add_0_r.
Qed.

(** C1.  In the sequence the merger returns, each point is stamped
    strictly before the next one, and so strictly before every later one:
    no two points share a timestamp. *)
Theorem merged_forecast_ascending fuel clock forecastJson (out : list (@Forecast float)) :
  _get_hourly_forecast fuel clock forecastJson = Some (Ok (Some out)) →
  (∀ i p q, out !! i = Some p → out !! S i = Some q →
     ∃ t u, timestamp p = Some t ∧ timestamp q = Some u ∧ t < u) ∧
  (∀ i j p q, (i < j)%nat → out !! i = Some p → out !! j = Some q →
     ∃ t u, timestamp p = Some t ∧ timestamp q = Some u ∧ t < u).
Proof.
  intros (s & st & Hread & Hloop & <-)%get_hourly_forecast_Some.
  apply read_well_formed in Hread.
  destruct (merge_loop_invariant clock s fuel _ st Hread
              (initial_invariant clock s Hread) Hloop)
    as [(_ & _ & _ & _ & Hsorted) _].
  assert (∀ i j p q, (i < j)%nat → forecast st !! i = Some p →
            forecast st !! j = Some q → before p q) as Hall
    by (intros i j p q; by apply StronglySorted_lookup_lt).
  split; [|exact Hall].
  intros i p q. apply Hall. lia.
Qed.

(** C4.  When every reading of the clock during the merge lies between
    [lo] and [hi], every point returned is stamped with an instant of one
    of the series that is no earlier than [lo] minus one hour, and every
    instant of a series that is no earlier than [hi] minus one hour has its
    point in what is returned.  For a clock that reads [now] throughout,
    the points returned are those of the instants [t] of the series with
    [now - 1h <= t]: the instant equal to the cutoff is kept, any earlier
    one is dropped. *)
Theorem merged_forecast_cutoff fuel clock (lo hi : Z) forecastJson
    (out : list (@Forecast float)) :
  (∀ k, lo ≤ clock k ≤ hi) →
  _get_hourly_forecast fuel clock forecastJson = Some (Ok (Some out)) →
  ∃ s : @merge_inputs float,
    read_merge_inputs forecastJson = Ok (Some s) ∧
    (∀ p, p ∈ out →
       ∃ t, timestamp p = Some t ∧ on_timeline s t ∧ lo - hours 1 ≤ t) ∧
    (∀ t, on_timeline s t → hi - hours 1 ≤ t →
       ∃ p, p ∈ out ∧ timestamp p = Some t).
Proof.
  intros Hclock (s & st & Hread & Hloop & <-)%get_hourly_forecast_Some.
  exists s. split; [done|].
  pose proof (read_well_formed _ _ Hread) as Hwf.
  destruct (merge_loop_invariant clock s fuel _ st Hwf
              (initial_invariant clock s Hwf) Hloop)
    as [(Hahead & _ & Hpts & Hdone & _) Hexit].
  split.
  - intros p Hp. rewrite Forall_forall in Hpts.
    destruct (Hpts p Hp) as (t & Ht & _ & Hline & k & Hk).
    exists t. specialize (Hclock k). repeat split; [done..|lia].
  - intros t (L & HL & Ht)%on_timeline_series Hhi.
    rewrite <- (series_of_tracks s st) in HL.
    apply list_elem_of_fmap in HL as ([L' c] & -> & Htr). simpl in Ht.
    apply list_elem_of_lookup in Ht as (i & Hi).
    unfold ahead in Hahead. rewrite Forall_forall in Hahead, Hdone.
    destruct (decide (i < c)%nat) as [Hlt | Hge].
    + apply (Hdone _ Htr i t Hlt Hi). intros k. specialize (Hclock k). lia.
    + pose proof (lookup_lt_Some _ _ _ Hi) as Hlen.
      destruct (lookup_lt_is_Some_2 L' c) as [u Hu]; [lia|].
      pose proof (Hahead _ Htr u Hu) as Hle.
      destruct Hwf as (_ & Hbound & _).
      pose proof (tracks_series s st _ Hbound) as Hb.
      rewrite Forall_forall in Hb. specialize (Hb _ Htr). simpl in Hb.
      rewrite Forall_forall in Hb.
      specialize (Hb u (list_elem_of_lookup_2 _ _ _ Hu)). lia.
Qed.

Lemma merge_loop_exit clock (s : @merge_inputs float) (fuel : nat) st st' :
  merge_loop fuel clock s st = Some (Ok st') → lastTimestamp s < ts st'.
Proof.
  revert st. induction fuel as [|fuel IH]; intros st; simpl; [done|].
  case_bool_decide as Hts.
  - destruct (merge_iteration clock s st) as [st1|e]; [apply IH | done].
  - intros [= <-]. lia.
Qed.



(** No series is empty when the loop starts: with an empty one, the
    arguments of the [logger.info] lines raise [IndexError] first. *)
Lemma read_merge_inputs_nonempty forecastJson (s : @merge_inputs float) :
  read_merge_inputs forecastJson = Ok (Some s) →
  timestamp10mList s ≠ [] ∧ timestamp1hList s ≠ [] ∧
  timestamp1hLowResolutionList s ≠ [] ∧ timestamp3hList s ≠ [].
Proof.
  intros (n10 & n1 & n1l & n3 & a & b & c & d & _ & _ & _ & _
          & La & Lb & Lc & Ld & _)%read_merge_inputs_Some.
  repeat split; intros Hnil;
    [ rewrite Hnil in La | rewrite Hnil in Lb
    | rewrite Hnil in Lc | rewrite Hnil in Ld ]; done.
Qed.


(** ** The merger: no index is out of range *)

Lemma instants_length (start : Z) (delta : Z → Z) (n : nat) :
  length (instants start delta n) = n.
Proof. unfold instants. by rewrite length_fmap, length_seq. Qed.

(** Each list of instants is no longer than the lists of values read at
    its cursor. *)
Lemma read_merge_inputs_lengths forecastJson (s : @merge_inputs float) :
  read_merge_inputs forecastJson = Ok (Some s) →
  let n10 := length (timestamp10mList s) in
  let n1 := length (timestamp1hList s) in
  let n1l := length (timestamp1hLowResolutionList s) in
  let n3 := length (timestamp3hList s) in
  ((n10 ≤ length (precipitationMin10mList s) ∧
   n10 ≤ length (precipitation10mList s) ∧
   n10 ≤ length (precipitationMax10mList s)) ∧
  (n1 ≤ length (temperatureMin1hList s) ∧
   n1 ≤ length (temperatureMean1hList s) ∧
   n1 ≤ length (temperatureMax1hList s)) ∧
  (n1l ≤ length (preciptiationMin1hList s) ∧
   n1l ≤ length (precipitation1hList s) ∧
   n1l ≤ length (preciptiationMax1hList s) ∧
   n1l ≤ length (windGustSpeed1hList s) ∧
   n1l ≤ length (windSpeed1hList s)) ∧
  (n3 ≤ length (weatherIcon3hList s) ∧
   n3 ≤ length (windDirection3hlist s)))%nat.
Proof.
  intros H. read_inversion H. rewrite !instants_length.
  repeat split; lia.
Qed.

Lemma py_index_lt {A} (V : list A) (c : nat) :
  (c < length V)%nat → ∃ v, py_index V c = Ok v.
Proof.
  intros Hc. unfold py_index.
  destruct (lookup_lt_is_Some_2 V c Hc) as [v ->]. eauto.
Qed.

Lemma condition_get_raises icon (e : exn) :
  condition_get icon = Raise e → e = TypeError.
Proof. destruct icon; simpl; congruence. Qed.

Lemma py_index_Ok {A} (V : list A) (c : nat) (v : A) :
  py_index V c = Ok v → V !! c = Some v.
Proof. unfold py_index. destruct (V !! c); [congruence | done]. Qed.

(** On the locals read from a payload, a run of the body raises nothing
    but the [OverflowError] of a sum that is no datetime, and, when it
    appends a point, the [TypeError] of an unhashable icon of the 3-hourly
    series. *)
Lemma merge_iteration_raises clock forecastJson (s : @merge_inputs float) st (e : exn) :
  read_merge_inputs forecastJson = Ok (Some s) →
  merge_iteration clock s st = Raise e →
  (e = OverflowError ∧
     (¬ datetime_min ≤ lastTimestamp s + minutes 10 ≤ datetime_max ∨
      ¬ datetime_min ≤ clock (readings st) - hours 1 ≤ datetime_max)) ∨
  (e = TypeError ∧ clock (readings st) - hours 1 ≤ ts st ∧
     ∃ v, v ∈ weatherIcon3hList s ∧ condition_get v = Raise TypeError).
Proof.
  intros ((? & ? & ?) & (? & ? & ?) & (? & ? & ? & ? & ?) & (? & ?))%read_merge_inputs_lengths.
  unfold merge_iteration. destruct st as [t c10 c1 c1l c3 fc k]. cbv beta iota.
  destruct (datetime_add (lastTimestamp s) (minutes 10)) as [nt|e0] eqn:Hnt;
    [rewrite Ok_bind
    |apply datetime_add_Raise in Hnt as [-> Hnt]; simpl; intros [= <-];
     left; split; [done|]; left; exact Hnt].
  repeat match goal with
  | |- context [fires ?L ?c ?t] =>
      let Hm := fresh "Hm" in
      rewrite (fires_spec L c t);
      destruct (bool_decide_reflect (L !! c = Some t)) as [Hm | _];
      [apply lookup_lt_Some in Hm|]
  end;
  repeat (cbv beta iota;
          first [ rewrite Ok_bind
                | rewrite advance_spec
                | match goal with
                  | |- context [py_index ?V ?c] =>
                      let v := fresh "v" in let Hv := fresh "Hv" in
                      destruct (py_index_lt V c) as [v Hv]; [lia|]; rewrite Hv
                  end ]);
  (destruct (datetime_add (clock k) (- hours 1)) as [cutoff|e0] eqn:Hcut;
    [rewrite Ok_bind; cbv beta iota; apply datetime_add_Ok in Hcut as [-> _]
    |apply datetime_add_Raise in Hcut as [-> Hcut]; simpl; intros [= <-];
     left; split; [done|]; right; exact Hcut]);
  (case_bool_decide as Hemit; [|done]);
  match goal with
  | |- context [condition_get ?p] =>
      destruct (condition_get p) as [|e'] eqn:Hc; [done|]
  end;
  simpl in Hc; try discriminate Hc;
  simpl; intros [= <-]; right;
  pose proof (condition_get_raises _ _ Hc) as ->;
  (split; [done|]); (split; [exact Hemit|]);
  match type of Hc with
  | condition_get ?p = _ => exists p
  end;
  (split; [|exact Hc]);
  eapply list_elem_of_lookup_2, py_index_Ok; eassumption.
Qed.

(** ** The merger: the loop ends *)

Lemma merge_loop_more_fuel clock (s : @merge_inputs float) (fuel fuel' : nat) st
    (r : result (@loop_vars float)) :
  merge_loop fuel clock s st = Some r → (fuel ≤ fuel')%nat →
  merge_loop fuel' clock s st = Some r.
Proof.
  revert st fuel'. induction fuel as [|fuel IH]; intros st fuel' Hr Hle; [done|].
  destruct fuel' as [|fuel']; [lia|]. simpl in *.
  case_bool_decide; [|done].
  destruct (merge_iteration clock s st); [|done].
  apply IH; [done | lia].
Qed.

Lemma merge_loop_raises clock forecastJson (s : @merge_inputs float) (fuel : nat)
    st (e : exn) :
  read_merge_inputs forecastJson = Ok (Some s) →
  merge_loop fuel clock s st = Some (Raise e) →
  (e = TypeError ∧ ∃ v, v ∈ weatherIcon3hList s ∧ condition_get v = Raise TypeError) ∨
  (e = OverflowError ∧
     (datetime_max < lastTimestamp s + minutes 10 ∨
      ∃ k, ¬ datetime_min ≤ clock k - hours 1 ≤ datetime_max)).
Proof.
  intros Hread. revert st. induction fuel as [|fuel IH]; intros st; simpl; [done|].
  case_bool_decide; [|done].
  destruct (merge_iteration clock s st) as [st'|e'] eqn:Hit; [apply IH|].
  intros [= ->].
  destruct (merge_iteration_raises _ _ _ _ _ Hread Hit)
    as [[-> [Hlast | Hclock]] | (-> & _ & Hicon)]; [| |by left].
  - right. split; [done|]. left.
    destruct (read_in_range _ _ Hread) as [_ Hrange]. unfold minutes in *. lia.
  - right. split; [done|]. right. eauto.
Qed.

(** C6.  A run of the body moves past every series whose instant at the
    cursor is [ts]; from any values of the loop variables, a fuel of two
    more than the number of elements the cursors have not passed lets the
    loop end, and when it ends without an exception [ts] is past
    [lastTimestamp]; so for every payload there is a fuel from which
    [_get_hourly_forecast] gives one and the same outcome; on the locals
    read from a payload the loop raises nothing but the [TypeError] of an
    unhashable icon and the [OverflowError] of a sum that is no datetime
    ([lastTimestamp] within ten minutes of [datetime.max], or a clock
    whose reading less one hour is none); and without these, that is for
    well-formed series, the loop ends with [ts] past [lastTimestamp]. *)
Theorem merge_loop_terminates clock :
  (∀ (s : @merge_inputs float) st st',
     merge_iteration clock s st = Ok st' →
     (timestamp10mList s !! i10m st = Some (ts st) → i10m st' = S (i10m st)) ∧
     (timestamp1hList s !! i1h st = Some (ts st) → i1h st' = S (i1h st)) ∧
     (timestamp1hLowResolutionList s !! i1hLowResolution st = Some (ts st) →
        i1hLowResolution st' = S (i1hLowResolution st)) ∧
     (timestamp3hList s !! i3h st = Some (ts st) → i3h st' = S (i3h st))) ∧
  (∀ (s : @merge_inputs float) st (fuel : nat),
     (remaining (tracks s st) + 2 ≤ fuel)%nat →
     ∃ r, merge_loop fuel clock s st = Some r ∧
          ∀ st', r = Ok st' → lastTimestamp s < ts st') ∧
  (∀ forecastJson, ∃ (n : nat) r, ∀ fuel : nat, (n ≤ fuel)%nat →
     _get_hourly_forecast fuel clock forecastJson = Some r) ∧
  (∀ forecastJson (s : @merge_inputs float) (fuel : nat) (e : exn),
     read_merge_inputs forecastJson = Ok (Some s) →
     merge_loop fuel clock s (initial_vars s) = Some (Raise e) →
     (e = TypeError ∧
        ∃ v, v ∈ weatherIcon3hList s ∧ condition_get v = Raise TypeError) ∨
     (e = OverflowError ∧
        (datetime_max < lastTimestamp s + minutes 10 ∨
         ∃ k, ¬ datetime_min ≤ clock k - hours 1 ≤ datetime_max))) ∧
  (∀ forecastJson (s : @merge_inputs float) (fuel : nat),
     read_merge_inputs forecastJson = Ok (Some s) →
     Forall (λ v, ∃ c, condition_get v = Ok c) (weatherIcon3hList s) →
     lastTimestamp s + minutes 10 ≤ datetime_max →
     (∀ k, datetime_min ≤ clock k - hours 1 ≤ datetime_max) →
     (remaining (tracks s (initial_vars s)) + 2 ≤ fuel)%nat →
     ∃ st', merge_loop fuel clock s (initial_vars s) = Some (Ok st') ∧
            lastTimestamp s < ts st').
Proof.
  assert (∀ (s : @merge_inputs float) st (fuel : nat),
            (remaining (tracks s st) + 2 ≤ fuel)%nat →
            is_Some (merge_loop fuel clock s st)) as Hstop
    by (intros s st fuel Hfuel; apply merge_loop_stops; lia).
  split; [|split; [|split; [|split]]].
  - intros s st st' (Htr & _)%merge_iteration_Ok.
    unfold tracks in Htr. rewrite !fmap_cons, !bump_pair in Htr.
    injection Htr as H3 H1 H1l H10.
    rewrite H3, H1, H1l, H10.
    repeat split; intros Hm; by rewrite bool_decide_eq_true_2.
  - intros s st fuel Hfuel. destruct (Hstop s st fuel Hfuel) as [r Hr].
    exists r. split; [done|]. intros st' ->. by eapply merge_loop_exit.
  - intros forecastJson. unfold _get_hourly_forecast.
    destruct (read_merge_inputs forecastJson) as [[s|]|e] eqn:Hread.
    + set (n := (remaining (tracks s (initial_vars s)) + 2)%nat).
      destruct (Hstop s (initial_vars s) n) as [r Hr]; [done|].
      exists n. destruct r as [st|e]; eexists; intros fuel Hfuel;
        by rewrite (merge_loop_more_fuel _ _ _ _ _ _ Hr Hfuel).
    + exists 0%nat. eauto.
    + exists 0%nat. eauto.
  - intros forecastJson s fuel e. apply merge_loop_raises.
  - intros forecastJson s fuel Hread Hicons Hlast Hclock Hfuel.
    destruct (Hstop s (initial_vars s) fuel Hfuel) as [[st'|e] Hr].
    + exists st'. split; [done|]. by eapply merge_loop_exit.
    + rewrite Forall_forall in Hicons.
      destruct (merge_loop_raises _ _ _ _ _ _ Hread Hr)
        as [(_ & v & Hv & Hraise) | (_ & [Hover | (k & Hk)])].
      * destruct (Hicons v Hv) as (c & Hc). congruence.
      * lia.
      * destruct (Hk (Hclock k)).
Qed.


(** ** Further properties: the station feed *)

Lemma dict_lookup_elem (d : list (string * pyval float)) (key : string) (v : pyval float) :
  dict_lookup d key = Some v → ∃ k, (k, v) ∈ d.
Proof.
  induction d as [|[k w] d IH]; simpl; [done|].
  destruct (String.eqb k key).
  - intros [= ->]. exists k. apply list_elem_of_here.
  - intros (k' & Hk')%IH. exists k'. by apply list_elem_of_further.
Qed.

Lemma tag_field_text (d : list (string * pyval float)) (key unit : string) :
  text_cells d →
  tag_field (PDict d) key unit = Ok (of_float (cell d key), Some unit).
Proof.
  intros Htext. unfold tag_field, py_get, cell. rewrite Ok_bind.
  destruct (dict_lookup d key) as [v|] eqn:Hv; [|done].
  apply dict_lookup_elem in Hv as (k & Hin).
  unfold text_cells in Htext. rewrite Forall_forall in Htext.
  destruct (Htext _ Hin) as [Hnone | (s & Hs)]; simpl in *; subst v; [done|].
  unfold tag, to_float, py_float. by destruct (float_of_str s).
Qed.

(** X1.  On a row whose cells are texts or [None], as [csv.DictReader]
    gives them, the normalizer raises only for a [Date] that does not
    parse, with [ValueError]; otherwise it returns the record whose twelve
    quantities are the numbers of their cells, absent where the cell is
    missing, [None] or no numeral, each with its unit. *)
Theorem current_data_for_text_row (d : list (string * pyval float)) :
  text_cells d →
  let record date :=
    {| station := default PNone (dict_lookup d "Station/Location");
       date := date;
       airTemperature := (of_float (cell d "tre200s0"), Some "°C"%string);
       cw_precipitation := (of_float (cell d "rre150z0"), Some "mm"%string);
       sunshine := (of_float (cell d "sre000z0"), Some "min"%string);
       globalRadiation := (of_float (cell d "gre000z0"), Some "W/m²"%string);
       relativeHumidity := (of_float (cell d "ure200s0"), Some "%"%string);
       dewPoint := (of_float (cell d "tde200s0"), Some "°C"%string);
       cw_windDirection := (of_float (cell d "dkl010z0"), Some "°"%string);
       cw_windSpeed := (of_float (cell d "fu3010z0"), Some "km/h"%string);
       gustPeak1s := (of_float (cell d "fu3010z1"), Some "km/h"%string);
       pressureStationLevel := (of_float (cell d "prestas0"), Some "hPa"%string);
       pressureSeaLevel := (of_float (cell d "prestas0"), Some "hPa"%string);
       pressureSeaLevelAtStandardAtmosphere :=
         (of_float (cell d "pp0qnhs0"), Some "hPa"%string) |} in
  _get_current_data_for_row (PDict d) =
    match dict_lookup d "Date" with
    | Some (PStr s) =>
        match strptime s "%Y%m%d%H%M" with
        | Some t => Ok (record (Some t))
        | None => Raise ValueError
        end
    | _ => Ok (record None)
    end.
Proof.
  intros Htext record. unfold _get_current_data_for_row.
  rewrite !(tag_field_text d _ _ Htext).
  unfold py_get. rewrite !Ok_bind. unfold record.
  destruct (dict_lookup d "Date") as [v|] eqn:Hv; [|reflexivity].
  apply dict_lookup_elem in Hv as (k & Hin).
  unfold text_cells in Htext. rewrite Forall_forall in Htext.
  destruct (Htext _ Hin) as [Hnone | (s & Hs)]; simpl in *; subst v; [reflexivity|].
  unfold py_strptime. by destruct (strptime s "%Y%m%d%H%M").
Qed.

Lemma Forall2_for_each {A B} (body : A → result B) (l : list A) (r : list B) :
  Forall2 (λ x y, body x = Ok y) l r → for_each body l = Ok r.
Proof.
  induction 1 as [|x y l r Hx _ IH]; simpl; [done|].
  by rewrite Hx, Ok_bind, IH.
Qed.

(** X2.  [get_current_weather_for_all_stations] returns exactly when every
    row the feed yields is normalized and the feed ends normally or in a
    [RequestException]; it then returns one record per row read, in the
    order of the feed: a transport failure in the middle of the feed gives
    the stations read so far. *)
Theorem all_stations_in_order (feed : @csv_feed float) (weather : list (@CurrentWeather float)) :
  get_current_weather_for_all_stations feed = Ok weather ↔
  Forall2 (λ row cw, _get_current_data_for_row row = Ok cw) (feed_rows feed) weather ∧
  (feed_failure feed = None ∨ feed_failure feed = Some RequestException).
Proof.
  unfold get_current_weather_for_all_stations. split.
  - intros H. inv_bind. apply for_each_Forall2 in E.
    destruct (feed_failure feed) as [[]|]; simplify_eq; eauto.
  - intros [Hrows Hend]. rewrite (Forall2_for_each _ _ _ Hrows), Ok_bind.
    by destruct Hend as [-> | ->].
Qed.

Lemma first_matching_row_found (pre post : list (pyval float)) (row : pyval float)
    (failure : option exn) (code name : string) :
  Forall (λ row, ∃ name, py_getitem row "Station/Location" = Ok (PStr name) ∧
                         casefold name ≠ casefold code) pre →
  py_getitem row "Station/Location" = Ok (PStr name) →
  casefold name = casefold code →
  first_matching_row (pre ++ row :: post) failure (PStr code) = Ok (Some row).
Proof.
  intros Hpre Hname Heq. induction Hpre as [|r pre (n & Hn & Hne) _ IH]; simpl.
  - rewrite Hname. simpl. by rewrite (proj2 (String.eqb_eq _ _) Heq).
  - rewrite Hn. simpl.
    destruct (String.eqb_spec (casefold n) (casefold code)); [done | apply IH].
Qed.

(** X3.  The station lookup takes the first row whose station code equals
    the configured one up to case, and reads nothing after it: whatever
    the later rows and the end of the feed are, and whatever forecast the
    forecast feed gives, even none, the poll returns the record of that
    row as the current state. *)
Theorem station_found fuel clock (now : Z) (feed : @csv_feed float) response
    (pre post : list (pyval float)) (row : pyval float) (code name : string)
    (cw : @CurrentWeather float) (wf : option (@WeatherForecast float)) :
  feed_rows feed = pre ++ row :: post →
  Forall (λ row, ∃ name, py_getitem row "Station/Location" = Ok (PStr name) ∧
                         casefold name ≠ casefold code) pre →
  py_getitem row "Station/Location" = Ok (PStr name) →
  casefold name = casefold code →
  _get_current_data_for_row row = Ok cw →
  get_forecast fuel clock response = Some (Ok wf) →
  get_current_weather_for_station feed (PStr code) = Ok (Some cw) ∧
  _async_update_data fuel clock now (PStr code) feed response = Some (Ok (cw, wf)).
Proof.
  intros Hrows Hpre Hname Heq Hcw Hwf.
  assert (get_current_weather_for_station feed (PStr code) = Ok (Some cw)) as Hstation.
  { unfold get_current_weather_for_station, _get_current_weather_line_for_station.
    rewrite Hrows, (first_matching_row_found _ _ _ _ _ _ Hpre Hname Heq), Ok_bind.
    by rewrite Hcw. }
  split; [done|].
  unfold _async_update_data. by rewrite Hstation, Hwf.
Qed.

(** ** Further properties: the assembly and the poll *)

(** X4.  When the request of the forecast feed fails with a
    [RequestException], the assembly returns no forecast, for any fuel;
    the poll then succeeds with the current state of the station and no
    forecast when the station lookup gave one, and fails with
    [UpdateFailed] when no station is configured or the lookup gave
    nothing or raised. *)
Theorem forecast_request_failure fuel clock (now : Z) (station_code : pyval float)
    (feed : @csv_feed float) :
  get_forecast fuel clock (Raise RequestException) = Some (Ok None) ∧
  (∀ cw, station_code ≠ PNone →
     get_current_weather_for_station feed station_code = Ok (Some cw) →
     _async_update_data fuel clock now station_code feed (Raise RequestException)
       = Some (Ok (cw, None))) ∧
  (station_code = PNone ∨
   get_current_weather_for_station feed station_code = Ok None ∨
   (∃ e, get_current_weather_for_station feed station_code = Raise e) →
   _async_update_data fuel clock now station_code feed (Raise RequestException)
     = Some (Raise UpdateFailed)).
Proof.
  split; [reflexivity|]. unfold _async_update_data. split.
  - intros cw Hcode Hcw. rewrite Hcw. by destruct station_code.
  - intros [-> | [Hnone | (e & He)]]; [done | |].
    + rewrite Hnone. by destruct station_code.
    + rewrite He. by destruct station_code.
Qed.

Lemma get_forecast_raises fuel clock (d : list (string * pyval float)) (now : Z)
    (station_code : pyval float) (feed : @csv_feed float) :
  (∀ cs days hourly,
     _get_current_state (PDict d) = Ok cs →
     _get_daily_forecast (PDict d) = Ok days →
     _get_hourly_forecast fuel clock (PDict d) = Some (Ok hourly) →
     ∃ e, (sunrises ← sun_marks (PDict d) "sunrise";
           sunsets ← sun_marks (PDict d) "sunset";
           Ok (Some (Build_WeatherForecast cs days hourly sunrises sunsets)))
          = Raise e) →
  is_Some (_get_hourly_forecast fuel clock (PDict d)) →
  _async_update_data fuel clock now station_code feed (Ok (PDict d))
    = Some (Raise UpdateFailed).
Proof.
  intros Hraise [h Hh].
  assert (∃ e, get_forecast fuel clock (Ok (PDict d)) = Some (Raise e)) as (e & He).
  { unfold get_forecast, _get_forecast_json.
    destruct (_get_current_state (PDict d)) as [cs|e] eqn:Hcs; [|eauto].
    destruct (_get_daily_forecast (PDict d)) as [days|e] eqn:Hdays; [|eauto].
    rewrite Hh. destruct h as [hourly|e]; [|eauto].
    destruct (Hraise cs days hourly eq_refl eq_refl Hh) as (e & ->). eauto. }
  unfold _async_update_data. by rewrite He.
Qed.

(** X5.  A section that is missing is not a section that is [null].  With
    no [graph] key the sun marks are absent and nothing is raised; with a
    [graph] that is [null] the merger still returns no sequence, but the
    sun marks raise [AttributeError]; a [null] [currentWeather] makes the
    current state raise [AttributeError] and a [null] [forecast] makes the
    daily normalizer raise [TypeError].  In each of the three [null]
    cases the poll fails with [UpdateFailed]. *)
Theorem null_section_fails_poll fuel clock (now : Z) (station_code : pyval float)
    (feed : @csv_feed float) (d : list (string * pyval float)) :
  (dict_lookup d "graph" = None →
     sun_marks (PDict d) "sunrise" = Ok None ∧ sun_marks (PDict d) "sunset" = Ok None) ∧
  (dict_lookup d "graph" = Some PNone →
     _get_hourly_forecast fuel clock (PDict d) = Some (Ok None) ∧
     sun_marks (PDict d) "sunrise" = Raise AttributeError ∧
     _async_update_data fuel clock now station_code feed (Ok (PDict d))
       = Some (Raise UpdateFailed)) ∧
  (dict_lookup d "currentWeather" = Some PNone →
     _get_current_state (PDict d) = Raise AttributeError ∧
     _async_update_data fuel clock now station_code feed (Ok (PDict d))
       = Some (Raise UpdateFailed)) ∧
  (dict_lookup d "forecast" = Some PNone →
     _get_daily_forecast (PDict d) = Raise TypeError ∧
     _async_update_data fuel clock now station_code feed (Ok (PDict d))
       = Some (Raise UpdateFailed)).
Proof.
  split; [|split; [|split]].
  - intros Hg. unfold sun_marks, py_get. by rewrite Hg.
  - intros Hg.
    assert (_get_hourly_forecast fuel clock (PDict d) = Some (Ok None)) as Hh.
    { unfold _get_hourly_forecast, read_merge_inputs, py_get. by rewrite Hg. }
    assert (sun_marks (PDict d) "sunrise" = Raise AttributeError) as Hs.
    { unfold sun_marks, py_get. by rewrite Hg. }
    split; [done | split; [done|]].
    apply get_forecast_raises; [|by rewrite Hh].
    intros cs days hourly _ _ _. rewrite Hs. eauto.
  - intros Hc.
    assert (_get_current_state (PDict d) = Raise AttributeError) as Hs.
    { unfold _get_current_state, py_contains, py_get. rewrite Hc.
      rewrite bool_decide_eq_true_2 by eauto. reflexivity. }
    split; [done|].
    unfold _async_update_data, get_forecast, _get_forecast_json. by rewrite Hs.
  - intros Hf.
    assert (_get_daily_forecast (PDict d) = Raise TypeError) as Hd.
    { unfold _get_daily_forecast, py_contains, py_getitem. rewrite Hf.
      rewrite bool_decide_eq_true_2 by eauto. reflexivity. }
    split; [done|].
    unfold _async_update_data, get_forecast, _get_forecast_json.
    destruct (_get_current_state (PDict d)); [by rewrite Hd | done].
Qed.

(** ** Further properties: the daily normalizer *)

(** The timestamp, the icon and the condition of the point made from a
    day. *)
Lemma daily_point_head dailyJson p :
  daily_point dailyJson = Ok p →
  ((py_contains "dayDate" dailyJson = Ok false ∧ timestamp p = None) ∨
   (∃ raw t, py_getitem dailyJson "dayDate" = Ok raw ∧
             py_strptime raw "%Y-%m-%d" = Ok t ∧ timestamp p = Some t)) ∧
  ∃ raw i, py_get dailyJson "iconDay" PNone = Ok raw ∧ to_int raw = Ok i ∧
           icon p = of_int i ∧ condition p = (z ← i; ICON_TO_CONDITION_MAP !! z).
Proof.
  unfold daily_point. intros H. inv_bind.
  destruct a as [|]; inv_bind; subst p; simpl; split; eauto 10.
Qed.

(** X6.  When the daily normalizer returns, it returns no point for a
    payload without [forecast], and otherwise one point per element of the
    array, in the order of the array; the timestamp of a point is the
    parsed [dayDate] of its element, absent when the element has none; its
    icon is the integer of [iconDay] and its condition the category of
    that integer, both absent when [iconDay] is missing. *)
Theorem daily_forecast_in_order forecastJson (days : list (@Forecast float)) :
  _get_daily_forecast forecastJson = Ok days →
  (py_contains "forecast" forecastJson = Ok false ∧ days = []) ∨
  ∃ elems,
    py_getitem forecastJson "forecast" ≫= py_iter = Ok elems ∧
    Forall2 (λ dailyJson p,
      ((py_contains "dayDate" dailyJson = Ok false ∧ timestamp p = None) ∨
       (∃ raw t, py_getitem dailyJson "dayDate" = Ok raw ∧
                 py_strptime raw "%Y-%m-%d" = Ok t ∧ timestamp p = Some t)) ∧
      ∃ raw i, py_get dailyJson "iconDay" PNone = Ok raw ∧ to_int raw = Ok i ∧
               icon p = of_int i ∧
               condition p = (z ← i; ICON_TO_CONDITION_MAP !! z)) elems days.
Proof.
  unfold _get_daily_forecast. intros H.
  apply bind_Ok in H as (present & Hpresent & H).
  destruct present; simpl in H; [right | left; by injection H as <-].
  apply bind_Ok in H as (arr & Harr & H).
  apply bind_Ok in H as (elems & Helems & H).
  exists elems. split; [by rewrite Harr|].
  apply for_each_Forall2 in H.
  eapply Forall2_impl; [exact H|]. intros dailyJson p. apply daily_point_head.
Qed.

(** X7.  One day whose [dayDate] is a text that does not parse is enough
    for the daily normalizer to return nothing, and for the whole poll to
    fail with [UpdateFailed], whatever the station feed gives. *)
Theorem daily_bad_date_fails_poll fuel clock (now : Z) (station_code : pyval float)
    (feed : @csv_feed float) (d e : list (string * pyval float))
    (elems : list (pyval float)) (s : string) :
  dict_lookup d "forecast" = Some (PList elems) →
  PDict e ∈ elems →
  dict_lookup e "dayDate" = Some (PStr s) →
  strptime s "%Y-%m-%d" = None →
  (∀ days, _get_daily_forecast (PDict d) ≠ Ok days) ∧
  _async_update_data fuel clock now station_code feed (Ok (PDict d))
    = Some (Raise UpdateFailed).
Proof.
  intros Hd He Hdate Hbad.
  assert (∀ days, _get_daily_forecast (PDict d) ≠ Ok days) as Hno.
  { intros days H. unfold _get_daily_forecast, py_contains, py_getitem in H.
    rewrite Hd, bool_decide_eq_true_2 in H by eauto. simpl in H.
    apply for_each_Forall2 in H.
    apply list_elem_of_lookup in He as (i & Hi).
    destruct (Forall2_lookup_l _ _ _ _ _ H Hi) as (p & _ & Hp).
    unfold daily_point, py_contains, py_getitem in Hp.
    rewrite Hdate, bool_decide_eq_true_2 in Hp by eauto. simpl in Hp.
    by rewrite Hbad in Hp. }
  split; [done|].
  unfold _async_update_data, get_forecast, _get_forecast_json.
  destruct (_get_current_state (PDict d)); [|done].
  destruct (_get_daily_forecast (PDict d)) as [days|] eqn:Hdays; [|done].
  by destruct (Hno days).
Qed.

(** ** Further properties: the weather entity *)

(** X8.  The entity of the daily forecast cannot show what the daily
    normalizer returns: as soon as there is one day, its [forecast] raises
    [TypeError], at [temperatureMax[0]] of the first day; with no day it
    is the empty list. *)
Theorem daily_entity_raises forecastJson (days : list (@Forecast float)) (now : Z)
    (cw : @CurrentWeather float) (wf : @WeatherForecast float) :
  _get_daily_forecast forecastJson = Ok days →
  dailyForecast wf = days →
  SwissWeather_forecast false now (Some (cw, Some wf)) =
    match days with [] => Ok (Some []) | _ => Raise TypeError end.
Proof.
  intros Hdays Hwf. unfold SwissWeather_forecast. simpl. rewrite Hwf.
  destruct days as [|p days]; [reflexivity|].
  assert (temperatureMax p = None) as Hmax.
  { unfold _get_daily_forecast in Hdays. inv_bind.
    destruct (negb a); [done|]. inv_bind.
    apply for_each_Forall2 in Hdays. inversion Hdays as [|d0 ? ? ? Hp]; subst.
    by apply daily_point_fields in Hp as (? & ? & ? & ? & ? & ? & ? & ? & ? & ? & ?). }
  simpl. unfold meteo_forecast_to_forecast. by rewrite Hmax.
Qed.


(** ** Further properties: what the merged points carry *)

(** The point a run of the body appends when [ts] passes the test against
    the clock. *)
Lemma merge_iteration_point clock (s : @merge_inputs float) (st st' : @loop_vars float) :
  merge_iteration clock s st = Ok st' →
  clock (readings st) - hours 1 ≤ ts st →
  ∃ cond,
    forecast st' = forecast st ++
      [ build_point s (ts st) cond
          (fired_at (timestamp3hList s) (i3h st) (ts st))
          (fired_at (timestamp1hList s) (i1h st) (ts st))
          (fired_at (timestamp1hLowResolutionList s) (i1hLowResolution st) (ts st))
          (fired_at (timestamp10mList s) (i10m st) (ts st)) ] ∧
    condition_get
      (default PNone (i ← fired_at (timestamp3hList s) (i3h st) (ts st);
                      weatherIcon3hList s !! i)) = Ok cond.
Proof.
  unfold merge_iteration. destruct st as [t c10 c1 c1l c3 fc k]. simpl.
  rewrite !fires_spec. intros H Hemit.
  repeat match goal with
  | H : _ ≫= _ = Ok _ |- _ =>
      let a := fresh "a" in let E := fresh "E" in
      apply bind_Ok in H as (a & E & H)
  | H : (let '(_, _) := ?x in _) = Ok _ |- _ => destruct x
  | H : Ok _ = Ok _ |- _ => injection H as H
  end.
  rewrite advance_spec in *.
  repeat match goal with
  | H : Ok _ = Ok _ |- _ => injection H as H
  | H : datetime_add _ _ = Ok _ |- _ => apply datetime_add_Ok in H as [? _]
  end.
  simplify_eq. unfold build_point, fired_at. simpl.
  repeat case_bool_decide; inv_bind; simplify_eq; try done; try lia;
  repeat match goal with
  | H : py_index _ _ = Ok _ |- _ => apply py_index_Ok in H
  end;
  eexists; simpl;
  repeat match goal with
  | H : _ !! _ = Some _ |- _ => rewrite H
  end;
  (split; [reflexivity | eassumption]).
Qed.

Lemma fired_at_index_of (L : list Z) (c : nat) (t : Z) :
  increasing L →
  (∀ u, L !! c = Some u → t ≤ u) →
  (∀ i u, (i < c)%nat → L !! i = Some u → u < t) →
  fired_at L c t = index_of t L.
Proof.
  intros Hinc Hahead Hbehind. unfold fired_at, index_of. case_bool_decide as Hm.
  - symmetry. rewrite (proj2 (list_find_Some (λ u, u = t) L c t)); [done|].
    split; [done | split; [done|]]. intros j y Hy Hj ->.
    specialize (Hbehind j t Hj Hy). lia.
  - destruct (list_find (λ u, u = t) L) as [[i x]|] eqn:Hf; [exfalso | done].
    apply list_find_Some in Hf as (Hi & -> & _).
    destruct (Nat.lt_trichotomy i c) as [Hlt | [-> | Hgt]].
    + specialize (Hbehind i t Hlt Hi). lia.
    + done.
    + pose proof (lookup_lt_Some _ _ _ Hi) as Hlen.
      destruct (lookup_lt_is_Some_2 L c) as [u Hu]; [lia|].
      specialize (Hahead u Hu). specialize (Hinc c i u t Hgt Hu Hi). lia.
Qed.

Lemma index_of_Some (L : list Z) (t : Z) (i : nat) :
  index_of t L = Some i → L !! i = Some t.
Proof.
  unfold index_of. destruct (list_find (λ u, u = t) L) as [[j x]|] eqn:Hf; [|done].
  apply list_find_Some in Hf as (Hj & -> & _). by intros [= <-].
Qed.

Lemma index_of_is_Some (L : list Z) (t : Z) :
  is_Some (index_of t L) ↔ t ∈ L.
Proof.
  split.
  - intros [i Hi%index_of_Some]. by eapply list_elem_of_lookup_2.
  - intros Ht. unfold index_of.
    destruct (list_find_elem_of (λ u, u = t) L t Ht eq_refl) as [[i x] ->]. by eexists.
Qed.

Lemma initial_provenance (s : @merge_inputs float) :
  merge_provenance s (initial_vars s).
Proof.
  split; simpl; [|constructor].
  unfold behind, tracks. simpl. repeat constructor; simpl; intros; lia.
Qed.

Lemma merge_iteration_provenance clock (s : @merge_inputs float) (st st' : @loop_vars float) :
  well_formed s →
  merge_invariant clock s st →
  merge_provenance s st →
  ts st ≤ lastTimestamp s →
  merge_iteration clock s st = Ok st' →
  merge_provenance s st'.
Proof.
  intros (Hinc & _) (Hahead & _) (Hbehind & Hpts) Hts Hit.
  pose proof (merge_iteration_Ok _ _ _ _ Hit) as (Htr & Hnext & _ & Hfc).
  assert (ts st < ts st') as Hlt.
  { rewrite Hnext. apply upcoming_foldl_gt; [|unfold minutes; lia].
    rewrite Htr. apply bump_past; [by apply tracks_series | done]. }
  split.
  - rewrite Htr. unfold behind in *. apply Forall_fmap.
    eapply Forall_impl; [exact Hbehind|].
    intros [L c] Hc i u. rewrite bump_pair. simpl in *. intros Hi Hu.
    destruct (decide (i < c)%nat) as [Hic | Hic].
    + specialize (Hc i u Hic Hu). lia.
    + case_bool_decide as Hm; [|lia].
      assert (i = c) as -> by lia. assert (u = ts st) as -> by congruence. lia.
  - destruct Hfc as [[-> _] | (q & _ & _ & Hemit)]; [done|].
    destruct (merge_iteration_point _ _ _ _ Hit Hemit) as (cond & -> & Hcond).
    apply Forall_app. split; [done|]. constructor; [|constructor].
    exists (ts st).
    unfold well_formed, series_of in Hinc.
    unfold ahead, behind, tracks in Hahead, Hbehind.
    repeat match goal with
    | H : Forall _ (_ :: _) |- _ => apply Forall_cons in H as [? H]
    end.
    rewrite !fired_at_index_of in * by done.
    split; [reflexivity | exact Hcond].
Qed.

Lemma merge_loop_provenance clock (s : @merge_inputs float) (fuel : nat)
    (st st' : @loop_vars float) :
  well_formed s →
  merge_invariant clock s st →
  merge_provenance s st →
  merge_loop fuel clock s st = Some (Ok st') →
  merge_provenance s st'.
Proof.
  intros Hwf. revert st. induction fuel as [|fuel IH]; intros st Hinv Hprov; simpl; [done|].
  case_bool_decide as Hts; [|by intros [= <-]].
  destruct (merge_iteration clock s st) as [st1|e] eqn:Hit; [|done].
  apply IH.
  - by eapply merge_iteration_invariant.
  - by eapply merge_iteration_provenance.
Qed.

(** What a returned forecast comes with. *)
Lemma hourly_forecast_facts fuel clock forecastJson (out : list (@Forecast float)) :
  _get_hourly_forecast fuel clock forecastJson = Some (Ok (Some out)) →
  ∃ (s : @merge_inputs float) st,
    read_merge_inputs forecastJson = Ok (Some s) ∧
    well_formed s ∧
    merge_invariant clock s st ∧
    merge_provenance s st ∧
    lastTimestamp s < ts st ∧
    forecast st = out ∧
    out ≠ [].
Proof.
  intros H.
  destruct (get_hourly_forecast_Some _ _ _ _ H) as (s & st & Hread & Hloop & Hout).
  pose proof (read_well_formed _ _ Hread) as Hwf.
  destruct (merge_loop_invariant clock s fuel _ st Hwf
              (initial_invariant clock s Hwf) Hloop) as [Hinv Hexit].
  pose proof (merge_loop_provenance clock s fuel _ st Hwf
                (initial_invariant clock s Hwf) (initial_provenance s) Hloop) as Hprov.
  exists s, st.
  split; [done|]. split; [done|]. split; [done|]. split; [done|].
  split; [done|]. split; [done|].
  intros ->. unfold _get_hourly_forecast in H. rewrite Hread, Hloop, Hout in H.
  done.
Qed.

(** X9.  Every point the merger returns is the point of its instant: it
    carries, for each series that has this instant, the values the series
    holds at the index of the instant, and nothing for the other series;
    where the 10-minute and the low-resolution hourly series both have the
    instant, the precipitation values are those of the 10-minute series;
    its condition is the category of its icon. *)
Theorem merged_point_provenance fuel clock forecastJson (out : list (@Forecast float)) :
  _get_hourly_forecast fuel clock forecastJson = Some (Ok (Some out)) →
  ∃ s : @merge_inputs float,
    read_merge_inputs forecastJson = Ok (Some s) ∧
    ∀ p, p ∈ out →
      ∃ t, timestamp p = Some t ∧ on_timeline s t ∧
           p = point_at s t (condition p) ∧
           condition_get (icon p) = Ok (condition p).
Proof.
  intros (s & st & Hread & _ & (_ & _ & Hline & _) & (_ & Hpts) & _ & <- & _)%hourly_forecast_facts.
  exists s. split; [done|]. intros p Hp.
  rewrite Forall_forall in Hpts, Hline.
  destruct (Hpts p Hp) as (t & Hpt & Hcond).
  destruct (Hline p Hp) as (t' & Ht' & _ & Hon & _).
  assert (t' = t) as -> by (rewrite Hpt in Ht'; simpl in Ht'; congruence).
  eauto.
Qed.

Lemma series_value_is_Some {A} (L : list Z) (V : list A) (t : Z) :
  (length L ≤ length V)%nat →
  is_Some (i ← index_of t L; V !! i) ↔ t ∈ L.
Proof.
  intros Hlen. rewrite <- index_of_is_Some. split.
  - intros [v Hv]. destruct (index_of t L); [by eexists | done].
  - intros [i Hi]. rewrite Hi. simpl. apply lookup_lt_is_Some_2.
    apply index_of_Some, lookup_lt_Some in Hi. lia.
Qed.

(** Which fields the point of an instant carries, on the locals read from
    a payload. *)
Lemma point_at_fields forecastJson (s : @merge_inputs float) (t : Z) (cond : option string) :
  read_merge_inputs forecastJson = Ok (Some s) →
  let p := point_at s t cond in
  (is_Some (temperatureMin p) ↔ t ∈ timestamp1hList s) ∧
  (is_Some (temperatureMean p) ↔ t ∈ timestamp1hList s) ∧
  (is_Some (temperatureMax p) ↔ t ∈ timestamp1hList s) ∧
  (is_Some (windSpeed p) ↔ t ∈ timestamp1hLowResolutionList s) ∧
  (is_Some (windGustSpeed p) ↔ t ∈ timestamp1hLowResolutionList s) ∧
  (is_Some (windDirection p) ↔ t ∈ timestamp3hList s) ∧
  (is_Some (precipitationMin p) ↔
     t ∈ timestamp10mList s ∨ t ∈ timestamp1hLowResolutionList s) ∧
  (is_Some (precipitation p) ↔
     t ∈ timestamp10mList s ∨ t ∈ timestamp1hLowResolutionList s) ∧
  (is_Some (precipitationMax p) ↔
     t ∈ timestamp10mList s ∨ t ∈ timestamp1hLowResolutionList s).
Proof.
  intros Hread.
  destruct (read_merge_inputs_lengths _ _ Hread)
    as ((? & ? & ?) & (? & ? & ?) & (? & ? & ? & ? & ?) & (? & ?)).
  unfold point_at, build_point. simpl.
  assert (∀ (V10 V1 : list (@FloatValue float)),
            (length (timestamp10mList s) ≤ length V10)%nat →
            (length (timestamp1hLowResolutionList s) ≤ length V1)%nat →
            is_Some (match index_of t (timestamp10mList s) with
                     | Some i => V10 !! i
                     | None => i ← index_of t (timestamp1hLowResolutionList s); V1 !! i
                     end) ↔
            t ∈ timestamp10mList s ∨ t ∈ timestamp1hLowResolutionList s) as Hfine.
  { intros V10 V1 Hlen10 Hlen1.
    rewrite <- (series_value_is_Some (timestamp1hLowResolutionList s) V1 t Hlen1).
    rewrite <- (index_of_is_Some (timestamp10mList s)).
    destruct (index_of t (timestamp10mList s)) as [i|] eqn:Hi.
    - split; [intros _; left; by eexists|]. intros _.
      apply lookup_lt_is_Some_2. apply index_of_Some, lookup_lt_Some in Hi. lia.
    - split; [by right|]. intros [[? ?] | ?]; done. }
  repeat split; try (by apply series_value_is_Some); try (by apply Hfine);
    try (by apply series_value_is_Some); apply Hfine; done.
Qed.

(** X10.  Which fields a returned point carries is decided by the series
    its instant belongs to: the three temperatures exactly when it is an
    instant of the hourly series, wind speed and gust speed exactly when
    it is one of the low-resolution hourly series, wind direction exactly
    when it is one of the 3-hourly series, and the three precipitation
    values exactly when it is one of the 10-minute or of the
    low-resolution hourly series. *)
Theorem merged_point_fields fuel clock forecastJson (out : list (@Forecast float)) :
  _get_hourly_forecast fuel clock forecastJson = Some (Ok (Some out)) →
  ∃ s : @merge_inputs float,
    read_merge_inputs forecastJson = Ok (Some s) ∧
    ∀ p, p ∈ out →
      ∃ t, timestamp p = Some t ∧
        (is_Some (temperatureMin p) ↔ t ∈ timestamp1hList s) ∧
        (is_Some (temperatureMean p) ↔ t ∈ timestamp1hList s) ∧
        (is_Some (temperatureMax p) ↔ t ∈ timestamp1hList s) ∧
        (is_Some (windSpeed p) ↔ t ∈ timestamp1hLowResolutionList s) ∧
        (is_Some (windGustSpeed p) ↔ t ∈ timestamp1hLowResolutionList s) ∧
        (is_Some (windDirection p) ↔ t ∈ timestamp3hList s) ∧
        (is_Some (precipitationMin p) ↔
           t ∈ timestamp10mList s ∨ t ∈ timestamp1hLowResolutionList s) ∧
        (is_Some (precipitation p) ↔
           t ∈ timestamp10mList s ∨ t ∈ timestamp1hLowResolutionList s) ∧
        (is_Some (precipitationMax p) ↔
           t ∈ timestamp10mList s ∨ t ∈ timestamp1hLowResolutionList s).
Proof.
  intros (s & st & Hread & _ & _ & (_ & Hpts) & _ & <- & _)%hourly_forecast_facts.
  exists s. split; [done|]. intros p Hp.
  rewrite Forall_forall in Hpts. destruct (Hpts p Hp) as (t & Hpt & _).
  exists t. split; [by rewrite Hpt|].
  rewrite Hpt. apply (point_at_fields _ _ _ _ Hread).
Qed.


(** ** Further properties: when the merger returns *)

Lemma last_on_timeline forecastJson (s : @merge_inputs float) :
  read_merge_inputs forecastJson = Ok (Some s) → on_timeline s (lastTimestamp s).
Proof.
  intros (n10 & n1 & n1l & n3 & a & b & c & d & _ & _ & _ & _
          & La%last_Some_elem_of & Lb%last_Some_elem_of
          & Lc%last_Some_elem_of & Ld%last_Some_elem_of & ->)%read_merge_inputs_Some.
  unfold on_timeline.
  destruct (Z.max_spec a (Z.max b (Z.max c d))) as [[_ ->] | [_ ->]]; [|tauto].
  destruct (Z.max_spec b (Z.max c d)) as [[_ ->] | [_ ->]]; [|tauto].
  destruct (Z.max_spec c d) as [[_ ->] | [_ ->]]; tauto.
Qed.

(** The loop is entered: the first value of [ts] is an instant of a
    series, and none is after [lastTimestamp]. *)
Lemma initial_ts_le_last (s : @merge_inputs float) :
  well_formed s → ts (initial_vars s) ≤ lastTimestamp s.
Proof.
  intros (_ & Hbound & _ & (L & HL & Ht)%on_timeline_series). simpl.
  rewrite Forall_forall in Hbound. specialize (Hbound L HL).
  rewrite Forall_forall in Hbound. by apply Hbound.
Qed.

(** When the loop is over, every instant of a series that passes the test
    whatever the clock reads has its point. *)
Lemma exit_complete clock (s : @merge_inputs float) st (t : Z) :
  well_formed s →
  merge_invariant clock s st →
  lastTimestamp s < ts st →
  on_timeline s t →
  (∀ k, clock k - hours 1 ≤ t) →
  ∃ p, p ∈ forecast st ∧ timestamp p = Some t.
Proof.
  intros (_ & Hbound & _) (Hahead & _ & _ & Hdone & _) Hexit
         (L & HL & Ht)%on_timeline_series Hall.
  rewrite <- (series_of_tracks s st) in HL.
  apply list_elem_of_fmap in HL as ([L' c] & -> & Htr). simpl in Ht.
  apply list_elem_of_lookup in Ht as (i & Hi).
  unfold ahead in Hahead. rewrite Forall_forall in Hahead, Hdone.
  destruct (decide (i < c)%nat) as [Hlt | Hge]; [by apply (Hdone _ Htr i t)|].
  pose proof (lookup_lt_Some _ _ _ Hi) as Hlen.
  destruct (lookup_lt_is_Some_2 L' c) as [u Hu]; [lia|].
  pose proof (Hahead _ Htr u Hu) as Hle.
  pose proof (tracks_series s st _ Hbound) as Hb.
  rewrite Forall_forall in Hb. specialize (Hb _ Htr). simpl in Hb.
  rewrite Forall_forall in Hb.
  specialize (Hb u (list_elem_of_lookup_2 _ _ _ Hu)). lia.
Qed.

Lemma py_first_last_nonempty {A} (l : list A) :
  l ≠ [] → ∃ x y, py_first l = Ok x ∧ py_last l = Ok y.
Proof.
  intros Hl. unfold py_first, py_index, py_last.
  destruct (last_is_Some l) as [_ Hlast]. destruct (Hlast Hl) as [y ->].
  destruct l as [|x l]; [done|]. simpl. eauto.
Qed.

(** X11.  On the series read from a payload: when every icon of the
    3-hourly series can be looked up in the table, [lastTimestamp] plus ten
    minutes is still a datetime, and every reading of the clock less one
    hour is a datetime no later than [lastTimestamp], the merger returns a
    forecast that is not empty, the same from some fuel on; and when
    [lastTimestamp] plus ten minutes is past [datetime.max], the merger
    raises [OverflowError] in the first run of the body, whatever the
    clock and the icons. *)
Theorem merged_forecast_returns clock forecastJson (s : @merge_inputs float) :
  read_merge_inputs forecastJson = Ok (Some s) →
  (Forall (λ v, ∃ c, condition_get v = Ok c) (weatherIcon3hList s) →
   lastTimestamp s + minutes 10 ≤ datetime_max →
   (∀ k, datetime_min ≤ clock k - hours 1 ≤ lastTimestamp s) →
   ∃ (n : nat) (out : list (@Forecast float)),
     out ≠ [] ∧
     ∀ fuel : nat, (n ≤ fuel)%nat →
       _get_hourly_forecast fuel clock forecastJson = Some (Ok (Some out))) ∧
  (datetime_max < lastTimestamp s + minutes 10 →
   ∀ fuel : nat, (0 < fuel)%nat →
     _get_hourly_forecast fuel clock forecastJson = Some (Raise OverflowError)).
Proof.
  intros Hread.
  pose proof (read_well_formed _ _ Hread) as Hwf.
  split.
  - intros Hicons Hlast Hrecent.
    set (n := (remaining (tracks s (initial_vars s)) + 2)%nat).
    destruct (merge_loop_stops clock s n (initial_vars s)) as [r Hr]; [lia..|].
    destruct r as [st|e].
    + destruct (merge_loop_invariant clock s n _ st Hwf
                  (initial_invariant clock s Hwf) Hr) as [Hinv Hexit].
      destruct (exit_complete clock s st (lastTimestamp s) Hwf Hinv Hexit
                  (last_on_timeline _ _ Hread)) as (p & Hp & _);
        [intros k; apply Hrecent|].
      assert (forecast st ≠ []) as Hne
        by (intros Hnil; rewrite Hnil in Hp; by apply elem_of_nil in Hp).
      destruct (py_first_last_nonempty _ Hne) as (x & y & Hx & Hy).
      exists n, (forecast st). split; [done|]. intros fuel Hfuel.
      unfold _get_hourly_forecast.
      rewrite Hread, (merge_loop_more_fuel _ _ _ _ _ _ Hr Hfuel), Hx, Hy. reflexivity.
    + rewrite Forall_forall in Hicons.
      destruct (merge_loop_raises _ _ _ _ _ _ Hread Hr)
        as [(_ & v & Hv & Hraise) | (_ & [Hover | (k & Hk)])].
      * destruct (Hicons v Hv) as (c & Hc). congruence.
      * lia.
      * destruct Hk. destruct (read_in_range _ _ Hread) as [_ Hrange].
        specialize (Hrecent k). lia.
  - intros Hover fuel Hfuel. unfold _get_hourly_forecast. rewrite Hread.
    destruct fuel as [|fuel]; [lia|]. simpl.
    rewrite bool_decide_eq_true_2 by (by apply initial_ts_le_last).
    unfold merge_iteration, initial_vars.
    assert (datetime_add (lastTimestamp s) (minutes 10) = Raise OverflowError) as ->
      by (apply datetime_add_Raise; split; [done | lia]).
    reflexivity.
Qed.

Lemma stale_loop clock forecastJson (s : @merge_inputs float) (fuel : nat) st
    (r : result (@loop_vars float)) :
  read_merge_inputs forecastJson = Ok (Some s) →
  (∀ k, lastTimestamp s < clock k - hours 1) →
  forecast st = [] →
  merge_loop fuel clock s st = Some r →
  (∃ st', r = Ok st' ∧ forecast st' = []) ∨
  (r = Raise OverflowError ∧ ∃ k, datetime_max < clock k).
Proof.
  intros Hread Hstale. revert st.
  destruct (read_in_range _ _ Hread) as [_ Hrange].
  induction fuel as [|fuel IH]; intros st Hnil; simpl; [done|].
  case_bool_decide as Hts; [|intros [= <-]; eauto].
  specialize (Hstale (readings st)).
  destruct (merge_iteration clock s st) as [st1|e] eqn:Hit.
  - apply IH. apply merge_iteration_Ok in Hit as (_ & _ & _ & Hfc).
    destruct Hfc as [[-> _] | (q & _ & _ & Hemit)]; [done | lia].
  - intros [= <-].
    destruct (merge_iteration_raises _ _ _ _ _ Hread Hit)
      as [[-> Hover] | (_ & Hemit & _)]; [|lia].
    right. split; [done|]. exists (readings st).
    unfold minutes, hours in *. lia.
Qed.

Lemma hourly_raises_fails_poll fuel clock (now : Z) (station_code : pyval float)
    (feed : @csv_feed float) forecastJson (e : exn) :
  forecastJson ≠ PNone →
  _get_hourly_forecast fuel clock forecastJson = Some (Raise e) →
  _async_update_data fuel clock now station_code feed (Ok forecastJson)
    = Some (Raise UpdateFailed).
Proof.
  intros Hjson Hhourly.
  assert (∃ e', get_forecast fuel clock (Ok forecastJson) = Some (Raise e')) as (e' & He').
  { unfold get_forecast, _get_forecast_json.
    destruct (_get_current_state forecastJson) as [cs|e1];
      [|destruct forecastJson; by eauto].
    destruct (_get_daily_forecast forecastJson) as [days|e2];
      [|destruct forecastJson; by eauto].
    rewrite Hhourly. destruct forecastJson; by eauto. }
  unfold _async_update_data. by rewrite He'.
Qed.

(** X12.  When the series are read from the payload and even their latest
    instant is more than one hour before every reading of the clock, no
    point is kept: the poll fails with [UpdateFailed], whatever the
    station feed gives, from some fuel on; and for a clock that reads
    datetimes the merger raises [IndexError], at [forecast[0]] of its
    last log line. *)
Theorem stale_forecast_raises clock forecastJson (s : @merge_inputs float) (now : Z)
    (station_code : pyval float) (feed : @csv_feed float) :
  read_merge_inputs forecastJson = Ok (Some s) →
  (∀ k, lastTimestamp s < clock k - hours 1) →
  ∃ n : nat, ∀ fuel : nat, (n ≤ fuel)%nat →
    ((∀ k, clock k ≤ datetime_max) →
     _get_hourly_forecast fuel clock forecastJson = Some (Raise IndexError)) ∧
    _async_update_data fuel clock now station_code feed (Ok forecastJson)
      = Some (Raise UpdateFailed).
Proof.
  intros Hread Hstale.
  exists (remaining (tracks s (initial_vars s)) + 2)%nat. intros fuel Hfuel.
  destruct (merge_loop_stops clock s fuel (initial_vars s)) as [r Hr]; [lia..|].
  assert (forecastJson ≠ PNone) as Hjson by (intros ->; discriminate Hread).
  destruct (stale_loop clock _ s fuel (initial_vars s) r Hread Hstale eq_refl Hr)
    as [(st & -> & Hnil) | (-> & k & Hk)].
  - assert (_get_hourly_forecast fuel clock forecastJson = Some (Raise IndexError))
      as Hraise by (unfold _get_hourly_forecast; by rewrite Hread, Hr, Hnil).
    split; [done|]. by apply hourly_raises_fails_poll with (e := IndexError).
  - assert (_get_hourly_forecast fuel clock forecastJson = Some (Raise OverflowError))
      as Hraise by (unfold _get_hourly_forecast; by rewrite Hread, Hr).
    split; [|by apply hourly_raises_fails_poll with (e := OverflowError)].
    intros Hreal. specialize (Hreal k). lia.
Qed.

(** ** Further properties: the entity of the hourly forecast *)

Lemma not_before_spec (now : Z) (l : list (@Forecast float)) :
  Forall (λ p, is_Some (timestamp p)) l →
  ∃ l', not_before now l = Ok l' ∧
        ∀ p, p ∈ l' ↔ p ∈ l ∧ ∃ t, timestamp p = Some t ∧ now ≤ t.
Proof.
  induction 1 as [|p l [t Ht] _ (l' & Hl' & Hin)]; simpl.
  - exists []. split; [done|]. intros p. split; [by intros ?%elem_of_nil|].
    by intros [?%elem_of_nil _].
  - rewrite Ht, Hl', Ok_bind. eexists. split; [done|]. intros q.
    case_bool_decide as Hnow; rewrite ?elem_of_cons, Hin.
    + split; [intros [-> | [? ?]]; eauto|]. intros [[-> | ?] ?]; eauto.
    + split; [intros [? ?]; eauto|]. intros [[-> | ?] (u & Hu & ?)]; [|eauto].
      assert (u = t) by congruence. lia.
Qed.

Lemma for_each_all_Ok {A B} (body : A → result B) (l : list A) :
  (∀ x, x ∈ l → ∃ y, body x = Ok y) → ∃ r, for_each body l = Ok r.
Proof.
  induction l as [|x l IH]; intros Hall; simpl; [eauto|].
  destruct (Hall x) as [y ->]; [apply list_elem_of_here|].
  destruct IH as [r ->]; [intros z Hz; apply Hall; by apply list_elem_of_further|].
  eauto.
Qed.

Lemma for_each_raise {A B} (body : A → result B) (l : list A) (E : exn) :
  (∀ x e, x ∈ l → body x = Raise e → e = E) →
  (∃ x e, x ∈ l ∧ body x = Raise e) →
  for_each body l = Raise E.
Proof.
  induction l as [|x l IH]; intros Hone (z & e & Hz & He); [by apply elem_of_nil in Hz|].
  simpl. destruct (body x) as [y|e'] eqn:Hx.
  - rewrite Ok_bind.
    apply elem_of_cons in Hz as [-> | Hz]; [congruence|].
    rewrite IH; [done | | eauto].
    intros w e'' Hw. apply Hone. by apply list_elem_of_further.
  - simpl. f_equal. eapply Hone; [apply list_elem_of_here | done].
Qed.

Lemma meteo_forecast_to_forecast_hourly p :
  (is_Some (temperatureMean p) ∧ is_Some (windSpeed p) ∧ is_Some (windDirection p) ∧
   is_Some (precipitation p) ∧ is_Some (temperatureMin p) →
   ∃ y, meteo_forecast_to_forecast true p = Ok y) ∧
  (∀ e, meteo_forecast_to_forecast true p = Raise e → e = TypeError) ∧
  (¬ (is_Some (temperatureMean p) ∧ is_Some (windSpeed p) ∧ is_Some (windDirection p) ∧
      is_Some (precipitation p) ∧ is_Some (temperatureMin p)) →
   meteo_forecast_to_forecast true p = Raise TypeError).
Proof.
  unfold meteo_forecast_to_forecast, subscript0.
  destruct (temperatureMean p), (windSpeed p), (windDirection p),
           (precipitation p), (temperatureMin p); simpl;
    (split;
      [intros (H1 & H2 & H3 & H4 & H5); eauto;
       repeat match goal with
              | H : is_Some None |- _ => destruct H as [? H]; discriminate H
              end
      |split;
        [intros e; congruence
        |intros Hno; try reflexivity; destruct Hno; split_and!; by eexists]]).
Qed.

(** X13.  The entity of the hourly forecast shows the merged forecast only
    when every point it keeps, those stamped at or after [now], is an
    instant of the hourly, of the low-resolution hourly and of the
    3-hourly series at once; as soon as one kept point lacks one of them,
    a 10-minute instant between two hours for one, its [forecast] raises
    [TypeError]. *)
Theorem hourly_entity_forecast fuel clock forecastJson (s : @merge_inputs float)
    (out : list (@Forecast float)) (now : Z)
    (cw : @CurrentWeather float) (wf : @WeatherForecast float) :
  _get_hourly_forecast fuel clock forecastJson = Some (Ok (Some out)) →
  read_merge_inputs forecastJson = Ok (Some s) →
  hourlyForecast wf = Some out →
  ((∀ p t, p ∈ out → timestamp p = Some t → now ≤ t →
      t ∈ timestamp1hList s ∧ t ∈ timestamp1hLowResolutionList s ∧
      t ∈ timestamp3hList s) →
   ∃ entries, SwissWeather_forecast true now (Some (cw, Some wf)) = Ok (Some entries)) ∧
  ((∃ p t, p ∈ out ∧ timestamp p = Some t ∧ now ≤ t ∧
      ¬ (t ∈ timestamp1hList s ∧ t ∈ timestamp1hLowResolutionList s ∧
         t ∈ timestamp3hList s)) →
   SwissWeather_forecast true now (Some (cw, Some wf)) = Raise TypeError).
Proof.
  intros Hrun Hread Hwf.
  destruct (hourly_forecast_facts _ _ _ _ Hrun)
    as (s' & st & Hread' & _ & _ & (_ & Hpts) & _ & <- & Hne).
  assert (s' = s) as -> by congruence.
  rewrite Forall_forall in Hpts.
  assert (∀ p, p ∈ forecast st → ∃ t, timestamp p = Some t ∧
            ((is_Some (temperatureMean p) ∧ is_Some (windSpeed p) ∧
              is_Some (windDirection p) ∧ is_Some (precipitation p) ∧
              is_Some (temperatureMin p)) ↔
             (t ∈ timestamp1hList s ∧ t ∈ timestamp1hLowResolutionList s ∧
              t ∈ timestamp3hList s))) as Hfields.
  { intros p Hp. destruct (Hpts p Hp) as (t & Hpt & _).
    exists t. split; [by rewrite Hpt|]. rewrite Hpt.
    destruct (point_at_fields _ _ t (condition p) Hread)
      as (Hmin & Hmean & _ & Hwind & _ & Hdir & _ & Hprec & _).
    simpl in *. rewrite Hmin, Hmean, Hwind, Hdir, Hprec. tauto. }
  destruct (py_first_last_nonempty _ Hne) as (x & _ & Hx & _).
  destruct (not_before_spec now (forecast st)) as (kept & Hkept & Hin).
  { apply Forall_forall. intros p Hp. destruct (Hfields p Hp) as (t & -> & _). eauto. }
  unfold SwissWeather_forecast. simpl. rewrite Hwf, Hx, Ok_bind, Hkept, Ok_bind.
  split.
  - intros Hall.
    destruct (for_each_all_Ok (meteo_forecast_to_forecast true) kept) as [r ->]; [|eauto].
    intros p (Hp & t & Ht & Hnow)%Hin.
    apply (proj1 (meteo_forecast_to_forecast_hourly p)).
    destruct (Hfields p Hp) as (t' & Ht' & Hiff).
    assert (t' = t) as -> by congruence. apply Hiff. by apply (Hall p t).
  - intros (p & t & Hp & Ht & Hnow & Hno).
    rewrite (for_each_raise (meteo_forecast_to_forecast true) kept TypeError); [done| |].
    + intros q e _. apply (proj1 (proj2 (meteo_forecast_to_forecast_hourly q))).
    + exists p, TypeError. split; [apply Hin; eauto|].
      apply (proj2 (proj2 (meteo_forecast_to_forecast_hourly p))).
      destruct (Hfields p Hp) as (t' & Ht' & Hiff).
      assert (t' = t) as -> by congruence. by rewrite Hiff.
Qed.

End Properties.

(** C7, as the specification words it, fails: code 2 maps to
    [partlycloudy], which is none of the fifteen categories it lists. *)
Lemma condition_mapper_spec_categories_counterexample :
  ¬ (∀ z k, ICON_TO_CONDITION_MAP !! z = Some k → k ∈ spec_categories).
Proof.
  intros H. specialize (H 2 "partlycloudy"%string eq_refl).
  revert H. by_compute.
Qed.

#[local] Existing Instance RefRuntime.builtins.

Lemma condition_mapper_table_witness :
  ICON_TO_CONDITION_MAP !! 2 = Some "partlycloudy"%string ∧
  ICON_TO_CONDITION_MAP !! 36 = None.
Proof.
  split.
  - apply (proj2 (proj1 (condition_mapper_table (float := Q) 2) _)).
    exists [2; 3; 4; 102; 103; 104]. split; by_compute.
  - apply (proj2 (proj1 (proj2 (proj2 (condition_mapper_table (float := Q) 36))))).
    intros k codes Hcl. unfold CONDITION_CLASSES in Hcl.
    repeat (apply elem_of_cons in Hcl as [[= -> ->]|Hcl]; [by_compute|]).
    by apply elem_of_nil in Hcl.
Defined.

Lemma pressure_levels_equal_witness :
  ∃ cw, _get_current_data_for_row example_row = Ok cw ∧
        pressureStationLevel cw = pressureSeaLevel cw ∧
        pressureSeaLevel cw = (PFloat (4776 # 5), Some "hPa"%string).
Proof.
  eexists. split; [vm_compute; reflexivity|].
  split; [|reflexivity].
  exact (proj1 (pressure_levels_equal example_row _ eq_refl)).
Defined.

Lemma daily_forecast_misplaced_fields_witness :
  ∃ p, _get_daily_forecast example_daily_payload = Ok [p] ∧
       windSpeed p = Some (PFloat (10 # 1), Some "°C"%string) ∧
       temperatureMax p = None ∧ temperatureMin p = None ∧ precipitation p = None.
Proof.
  eexists. split; [vm_compute; reflexivity|].
  match goal with
  | |- windSpeed ?p = _ ∧ _ =>
      destruct (daily_forecast_misplaced_fields example_daily_payload [p] p)
        as (? & ? & ? & ? & ? & _ & _ & _ & _ & _ & _ & _ & _ & H)
  end; [vm_compute; reflexivity | apply list_elem_of_here |].
  split; [reflexivity | exact H].
Defined.

(** C2 (the code departs from it).  On the scenario of section 8, with no
    hourly series, the merger raises [IndexError] whatever the fuel and
    the clock: [timestamp1hLowResolutionList[0]] of line 274. *)
Theorem empty_series_raises (fuel : nat) (clock : nat → Z) :
  _get_hourly_forecast fuel clock scenario_payload = Some (Raise IndexError).
Proof. reflexivity. Qed.

Lemma merged_forecast_ascending_witness :
  ∃ out, _get_hourly_forecast 10 clock_1230 example_payload = Some (Ok (Some out)) ∧
         length out = 6%nat ∧
         ∀ i p q, out !! i = Some p → out !! S i = Some q →
           ∃ t u, timestamp p = Some t ∧ timestamp q = Some u ∧ t < u.
Proof.
  eexists. split; [vm_compute; reflexivity|]. split; [reflexivity|].
  refine (proj1 (merged_forecast_ascending 10 clock_1230 example_payload _ _)).
  vm_compute; reflexivity.
Defined.

Lemma merged_forecast_cutoff_witness :
  ∃ out, _get_hourly_forecast 10 clock_1310 example_payload = Some (Ok (Some out)) ∧
         (∃ p, p ∈ out ∧ timestamp p = Some (clock_1310 0%nat - hours 1)) ∧
         (∀ p, p ∈ out → timestamp p ≠ Some (clock_1310 0%nat - hours 1 - minutes 10)).
Proof.
  eexists. split; [vm_compute; reflexivity|].
  match goal with
  | |- (∃ p, p ∈ ?out ∧ _) ∧ _ =>
      destruct (merged_forecast_cutoff 10 clock_1310 (clock_1310 0%nat)
                  (clock_1310 0%nat) example_payload out)
        as (s & Hread & Hsound & Hcomplete)
  end; [intros k; unfold clock_1310; lia | vm_compute; reflexivity |].
  assert (s = example_inputs) as ->
    by (vm_compute in Hread; injection Hread as <-; reflexivity).
  split.
  - apply Hcomplete; [|lia]. left. vm_compute.
    apply list_elem_of_further, list_elem_of_here.
  - intros p Hp Heq. destruct (Hsound p Hp) as (t & Ht & _ & Hlo).
    rewrite Heq in Ht. injection Ht as <-. unfold minutes in Hlo. lia.
Defined.

Lemma merge_loop_terminates_witness :
  ∃ st', merge_loop 11 clock_1230 example_inputs (initial_vars example_inputs)
           = Some (Ok st') ∧
         lastTimestamp example_inputs < ts st'.
Proof.
  apply (proj2 (proj2 (proj2 (proj2 (merge_loop_terminates clock_1230))))
           example_payload).
  - vm_compute. reflexivity.
  - repeat (apply Forall_cons; split; [eexists; vm_compute; reflexivity|]).
    constructor.
  - by_compute.
  - intros k. by_compute.
  - vm_compute. lia.
Defined.


Lemma missing_start_instant_witness :
  _get_hourly_forecast 0 clock_1230 example_payload_no_start = Some (Ok None) ∧
  _get_hourly_forecast 0 clock_1230 example_payload_text_start = Some (Ok None) ∧
  ∃ cw wf, _async_update_data 0 clock_1230 1704198600000000 (PStr "SMA"%string)
             example_feed (Ok example_payload_no_start) = Some (Ok (cw, Some wf)) ∧
           current wf = Some example_state ∧
           hourlyForecast wf = None.
Proof.
  destruct (missing_start_instant 0 clock_1230 example_no_start)
    as (Hhourly & _ & _ & Hpoll).
  { right; left. exists (tail example_graph), PNone.
    split; [reflexivity|]. split; [reflexivity|]. by left. }
  destruct (missing_start_instant 0 clock_1230
              [ ("currentWeather", example_current);
                ("forecast", PList [example_day]);
                ("graph", PDict (("start", PStr "soon") :: tail example_graph)) ]%string)
    as (Hhourly' & _).
  { right; left. eexists _, (PStr "soon"%string).
    split; [reflexivity|]. split; [reflexivity|]. right. reflexivity. }
  split; [exact Hhourly|]. split; [exact Hhourly'|].
  destruct (Hpoll 1704198600000000 (PStr "SMA"%string) example_feed) as [Hsucceeds _].
  edestruct Hsucceeds as (cw & Hcw).
  - vm_compute. reflexivity.
  - vm_compute. reflexivity.
  - vm_compute. reflexivity.
  - vm_compute. reflexivity.
  - left. by eexists.
  - eexists cw, _. split; [exact Hcw|]. split; reflexivity.
Defined.

(** C5, as the specification words it, fails.  With a [graph] that is
    [null] there is no start instant and the merger returns no sequence,
    but the lookup of the sunrise raises and the poll fails.  With a
    [start] that is a list, [int] raises [TypeError], which [to_int] does
    not catch: the merger raises and the poll fails.  With no [graph]
    section and a day whose date does not parse, the merger returns no
    sequence, the daily normalizer raises and the poll fails. *)
Lemma missing_start_instant_counterexample :
  (_get_hourly_forecast 0 clock_1230 (PDict example_null_graph) = Some (Ok None) ∧
   sun_marks (PDict example_null_graph) "sunrise" = Raise AttributeError ∧
   _async_update_data 0 clock_1230 1704198600000000 (PStr "SMA"%string)
     example_feed (Ok (PDict example_null_graph)) = Some (Raise UpdateFailed)) ∧
  (_get_hourly_forecast 0 clock_1230 example_payload_list_start
     = Some (Raise TypeError) ∧
   _async_update_data 0 clock_1230 1704198600000000 (PStr "SMA"%string)
     example_feed (Ok example_payload_list_start) = Some (Raise UpdateFailed)) ∧
  (_get_hourly_forecast 0 clock_1230 example_payload_no_graph_bad_day
     = Some (Ok None) ∧
   _async_update_data 0 clock_1230 1704198600000000 (PStr "SMA"%string)
     example_feed (Ok example_payload_no_graph_bad_day) = Some (Raise UpdateFailed)).
Proof. repeat split; vm_compute; reflexivity. Qed.

(** ** The further properties on the example inputs *)

Lemma current_data_for_text_row_witness :
  ∃ cw, _get_current_data_for_row (PDict example_cells) = Ok cw ∧
        date cw = Some 1704198600000000 ∧
        airTemperature cw = (PFloat (7 # 2), Some "°C"%string).
Proof.
  eexists. split.
  - etransitivity; [apply (current_data_for_text_row example_cells)|].
    + repeat (apply Forall_cons; split; [right; eexists; reflexivity|]).
      constructor.
    + vm_compute. reflexivity.
  - split; reflexivity.
Defined.

Lemma all_stations_in_order_witness :
  ∃ cw, get_current_weather_for_all_stations example_feed_cut = Ok [cw] ∧
        station cw = PStr "SMA"%string.
Proof.
  eexists. split.
  - apply (proj2 (all_stations_in_order example_feed_cut _)). split; [|by right].
    apply Forall2_cons; split; [vm_compute; reflexivity | constructor].
  - reflexivity.
Defined.

Lemma station_found_witness :
  ∃ cw, _async_update_data 0 clock_1230 1704198600000000 (PStr "sma"%string)
          example_feed_two (Raise RequestException) = Some (Ok (cw, None)) ∧
        station cw = PStr "SMA"%string.
Proof.
  eexists. split.
  - refine (proj2 (station_found 0 clock_1230 _ example_feed_two (Raise RequestException)
                     [example_row_ber] [PNone] example_row "sma"%string "SMA"%string
                     _ None _ _ _ _ _ _)).
    + reflexivity.
    + apply Forall_cons; split; [|constructor].
      exists "BER"%string. split; [reflexivity|]. vm_compute. discriminate.
    + reflexivity.
    + vm_compute. reflexivity.
    + vm_compute. reflexivity.
    + reflexivity.
  - reflexivity.
Defined.

Lemma forecast_request_failure_witness :
  (∃ cw, _async_update_data 0 clock_1230 1704198600000000 (PStr "SMA"%string)
           example_feed (Raise RequestException) = Some (Ok (cw, None))) ∧
  _async_update_data 0 clock_1230 1704198600000000 (PStr "BER"%string)
    example_feed (Raise RequestException) = Some (Raise UpdateFailed).
Proof.
  split.
  - eexists.
    apply (proj1 (proj2 (forecast_request_failure 0 clock_1230 1704198600000000
                           (PStr "SMA"%string) example_feed)));
      [discriminate | vm_compute; reflexivity].
  - apply (proj2 (proj2 (forecast_request_failure 0 clock_1230 1704198600000000
                           (PStr "BER"%string) example_feed))).
    right; left. vm_compute. reflexivity.
Defined.

Lemma null_section_fails_poll_witness :
  (_get_hourly_forecast 0 clock_1230 (PDict example_null_graph) = Some (Ok None) ∧
   sun_marks (PDict example_null_graph) "sunrise" = Raise AttributeError ∧
   _async_update_data 0 clock_1230 1704198600000000 (PStr "SMA"%string)
     example_feed (Ok (PDict example_null_graph)) = Some (Raise UpdateFailed)) ∧
  (_get_daily_forecast (PDict example_null_forecast) = Raise TypeError ∧
   _async_update_data 0 clock_1230 1704198600000000 (PStr "SMA"%string)
     example_feed (Ok (PDict example_null_forecast)) = Some (Raise UpdateFailed)).
Proof.
  split.
  - destruct (null_section_fails_poll 0 clock_1230 1704198600000000 (PStr "SMA"%string)
                example_feed example_null_graph) as (_ & Hnull & _).
    apply Hnull. reflexivity.
  - destruct (null_section_fails_poll 0 clock_1230 1704198600000000 (PStr "SMA"%string)
                example_feed example_null_forecast) as (_ & _ & _ & Hnull).
    apply Hnull. reflexivity.
Defined.

Lemma daily_forecast_in_order_witness :
  ∃ p, _get_daily_forecast example_daily_payload = Ok [p] ∧
       timestamp p = Some 1704153600000000 ∧
       condition p = ICON_TO_CONDITION_MAP !! 1.
Proof.
  eexists. split; [vm_compute; reflexivity|].
  match goal with
  | |- timestamp ?p = _ ∧ _ =>
      destruct (daily_forecast_in_order example_daily_payload [p])
        as [[Hcontains _] | (elems & Helems & Hall)]
  end; [vm_compute; reflexivity | discriminate Hcontains |].
  apply Forall2_cons_inv_r in Hall
    as (dailyJson & rest & (Hstamp & raw & i & Hraw & Hint & _ & Hcond) & _ & ->).
  vm_compute in Helems. injection Helems as <-.
  vm_compute in Hraw. injection Hraw as <-.
  vm_compute in Hint. injection Hint as <-.
  split; [|exact Hcond].
  destruct Hstamp as [[Hcontains _] | (raw & t & Hraw & Ht & Hstamp)];
    [discriminate Hcontains|].
  vm_compute in Hraw. injection Hraw as <-.
  vm_compute in Ht. injection Ht as <-. exact Hstamp.
Defined.

Lemma daily_bad_date_fails_poll_witness :
  _async_update_data 10 clock_1230 1704198600000000 (PStr "SMA"%string)
    example_feed (Ok (PDict example_bad_day)) = Some (Raise UpdateFailed).
Proof.
  refine (proj2 (daily_bad_date_fails_poll 10 clock_1230 _ _ example_feed example_bad_day
                   [("dayDate", PStr "tomorrow")]%string _ "tomorrow"%string _ _ _ _)).
  - reflexivity.
  - apply list_elem_of_further, list_elem_of_here.
  - reflexivity.
  - vm_compute. reflexivity.
Defined.

Lemma daily_entity_raises_witness :
  ∃ cw, _get_current_data_for_row example_row = Ok cw ∧
        SwissWeather_forecast false 1704198600000000 (Some (cw, Some example_forecast))
          = Raise TypeError.
Proof.
  eexists. split; [vm_compute; reflexivity|].
  refine (daily_entity_raises example_payload (dailyForecast example_forecast)
            _ _ example_forecast _ eq_refl).
  vm_compute. reflexivity.
Defined.

Lemma merged_point_provenance_witness :
  ∃ out, _get_hourly_forecast 10 clock_1230 example_payload = Some (Ok (Some out)) ∧
         ∀ p, p ∈ out →
           ∃ t, timestamp p = Some t ∧ p = point_at example_inputs t (condition p).
Proof.
  eexists. split; [vm_compute; reflexivity|].
  match goal with
  | |- ∀ p, p ∈ ?out → _ =>
      destruct (merged_point_provenance 10 clock_1230 example_payload out)
        as (s & Hread & Hpts)
  end; [vm_compute; reflexivity|].
  assert (s = example_inputs) as ->
    by (vm_compute in Hread; injection Hread as <-; reflexivity).
  intros p Hp. destruct (Hpts p Hp) as (t & Ht & _ & Hpt & _). eauto.
Defined.

Lemma merged_point_fields_witness :
  ∃ out, _get_hourly_forecast 10 clock_1230 example_payload = Some (Ok (Some out)) ∧
         ∀ p, p ∈ out → timestamp p = Some 1704197400000000 →
           is_Some (precipitation p) ∧ ¬ is_Some (temperatureMean p).
Proof.
  eexists. split; [vm_compute; reflexivity|].
  match goal with
  | |- ∀ p, p ∈ ?out → _ =>
      destruct (merged_point_fields 10 clock_1230 example_payload out)
        as (s & Hread & Hpts)
  end; [vm_compute; reflexivity|].
  assert (s = example_inputs) as ->
    by (vm_compute in Hread; injection Hread as <-; reflexivity).
  intros p Hp Hstamp.
  destruct (Hpts p Hp) as (t & Ht & _ & Hmean & _ & _ & _ & _ & _ & Hprec & _).
  assert (t = 1704197400000000) as -> by congruence.
  split.
  - apply Hprec. left. by_compute.
  - intros Hm%Hmean. revert Hm. by_compute.
Defined.

Lemma merged_forecast_returns_witness :
  (∃ (n : nat) out, out ≠ [] ∧
     ∀ fuel : nat, (n ≤ fuel)%nat →
       _get_hourly_forecast fuel clock_1230 example_payload = Some (Ok (Some out))) ∧
  (∀ fuel : nat, (0 < fuel)%nat →
     _get_hourly_forecast fuel clock_1230 example_payload_9999
       = Some (Raise OverflowError)).
Proof.
  split.
  - destruct (merged_forecast_returns clock_1230 example_payload example_inputs)
      as [Hreturns _]; [vm_compute; reflexivity|].
    apply Hreturns.
    + repeat (apply Forall_cons; split; [eexists; vm_compute; reflexivity|]).
      constructor.
    + by_compute.
    + intros k. by_compute.
  - destruct (merged_forecast_returns clock_1230 example_payload_9999 example_inputs_9999)
      as [_ Hraises]; [vm_compute; reflexivity|].
    apply Hraises. by_compute.
Defined.

Lemma stale_forecast_raises_witness :
  ∃ n : nat, ∀ fuel : nat, (n ≤ fuel)%nat →
    _get_hourly_forecast fuel clock_1700 example_payload = Some (Raise IndexError) ∧
    _async_update_data fuel clock_1700 1704214800000000 (PStr "SMA"%string)
      example_feed (Ok example_payload) = Some (Raise UpdateFailed).
Proof.
  destruct (stale_forecast_raises clock_1700 example_payload example_inputs
              1704214800000000 (PStr "SMA"%string) example_feed) as [n Hn].
  - vm_compute. reflexivity.
  - intros k. by_compute.
  - exists n. intros fuel Hfuel. destruct (Hn fuel Hfuel) as [Hraise Hpoll].
    split; [|exact Hpoll]. apply Hraise. intros k. by_compute.
Defined.

Lemma hourly_entity_forecast_witness :
  ∃ cw, _get_current_data_for_row example_row = Ok cw ∧
        SwissWeather_forecast true 1704196800000000 (Some (cw, Some example_forecast))
          = Raise TypeError.
Proof.
  eexists. split; [vm_compute; reflexivity|].
  match eval vm_compute in (hourlyForecast example_forecast) with
  | Some ?out =>
      refine (proj2 (hourly_entity_forecast 10 clock_1230 example_payload example_inputs
                       out 1704196800000000 _ example_forecast _ _ _) _)
  end.
  - vm_compute. reflexivity.
  - vm_compute. reflexivity.
  - reflexivity.
  - eexists _, _. split; [apply list_elem_of_further, list_elem_of_here|].
    split; [reflexivity|]. split; [by_compute|]. by_compute.
Defined.
